(** * Star-schema warehouse build: a shallow embedding of
      [scripts/build_sqlite_warehouse.py]

    The script reads one CSV of invoice lines into a pandas frame, cleans
    it, fills four dimension tables and one fact table of a SQLite
    database, and prints a few diagnostics.  This file embeds the script
    stage by stage and proves the properties of the pipeline.

    Conventions of the embedding.
    - Text is [string]; the CSV is decoded as ISO-8859-1, so every
      character is one [ascii] (a code point below 256).
    - pandas' [float64] is IEEE binary64, taken from the Standard
      Library's executable [spec_float] at precision 53.
    - pandas' conversions of an input column ([pd.to_datetime],
      [pd.to_numeric], [astype(str)]) are library code: the pipeline is
      written over the interface [Pandas], which gives the reading of one
      value, and module [Sample] gives a small concrete instance on which
      every definition runs.
    - [pd.to_datetime] reads a column under one date format, which it
      infers from the first value of the column; an instance of [Pandas]
      stands for one such format.  A property of one run is about the
      format of that run; two frames are compared only on concrete files
      whose dates are all written in the same way.
    - A parsed number is held as binary64, the dtype of a column that has
      a missing or a fractional value.  A column of integers only is held
      by pandas as int64: it agrees with binary64 up to 2^53, and beyond
      that bound its casts are exact where those of the model round.
    - An uncaught Python exception is a value of [error]; the script then
      produces neither tables nor the closing diagnostics. *)

From Stdlib Require Import ZArith NArith Bool List String Ascii Lia.
From Stdlib Require Import DecimalString.
From Stdlib Require Import Floats.SpecFloat.
Import ListNotations.

Local Open Scope string_scope.
Local Open Scope Z_scope.

Set Implicit Arguments.

(* ===================================================================== *)
(** ** Python strings: [str.strip] and [str.lower] on Latin-1 text *)
(* ===================================================================== *)

Module PyStr.

(** [str.isspace] for one character below U+0100: TAB..CR, FS..US, SPACE,
    NEL (0x85) and NBSP (0xA0). *)
Definition is_space (c : ascii) : bool :=
  let n := N_of_ascii c in
  (((9 <=? n) && (n <=? 13)) || ((28 <=? n) && (n <=? 32))
   || (n =? 133) || (n =? 160))%N.

(** [str.lower] for one character below U+0100: A..Z and the accented
    capitals 0xC0..0xDE (the multiplication sign 0xD7 apart) move up by
    32. *)
Definition lower_char (c : ascii) : ascii :=
  let n := N_of_ascii c in
  if (((65 <=? n) && (n <=? 90))
      || ((192 <=? n) && (n <=? 222) && negb (n =? 215)))%N
  then ascii_of_N (n + 32) else c.

Fixpoint lower (s : string) : string :=
  match s with
  | EmptyString => EmptyString
  | String c r => String (lower_char c) (lower r)
  end.

Fixpoint lstrip (s : string) : string :=
  match s with
  | EmptyString => EmptyString
  | String c r => if is_space c then lstrip r else s
  end.

Fixpoint rstrip (s : string) : string :=
  match s with
  | EmptyString => EmptyString
  | String c r =>
      match rstrip r with
      | EmptyString => if is_space c then EmptyString else String c EmptyString
      | r' => String c r'
      end
  end.

Definition strip (s : string) : string := rstrip (lstrip s).

(** The text with every whitespace character removed: the comparison key
    of a matching that ignores whitespace wherever it stands. *)
Fixpoint remove_spaces (s : string) : string :=
  match s with
  | EmptyString => EmptyString
  | String c r => if is_space c then remove_spaces r else String c (remove_spaces r)
  end.

(** [str(n)] of a Python integer. *)
Definition str_of_Z (z : Z) : string := NilZero.string_of_int (Z.to_int z).

(** [s.zfill(w)] for a string of digits: pad with zeros on the left. *)
Fixpoint zeros (n : nat) : string :=
  match n with
  | O => EmptyString
  | S k => String "0" (zeros k)
  end.

Definition zfill (w : nat) (s : string) : string :=
  zeros (w - String.length s) ++ s.

(** [all(f(c) for c in s)]. *)
Fixpoint all_chars (f : ascii -> bool) (s : string) : bool :=
  match s with
  | EmptyString => true
  | String c r => f c && all_chars f r
  end.

(** A character of the decimal notation of an integer. *)
Definition is_numeric_char (c : ascii) : bool :=
  let n := N_of_ascii c in
  (((48 <=? n) && (n <=? 57)) || (n =? 45))%N.

Fixpoint mem (s : string) (l : list string) : bool :=
  match l with
  | [] => false
  | x :: r => if String.eqb s x then true else mem s r
  end.

End PyStr.

(* ===================================================================== *)
(** ** binary64 numbers *)
(* ===================================================================== *)

Module F64.

Definition t := spec_float.
Definition prec : Z := 53.
Definition emax : Z := 1024.

Definition of_Z (z : Z) : t := binary_normalize prec emax z 0 false.
Definition mul : t -> t -> t := SFmul prec emax.
Definition div : t -> t -> t := SFdiv prec emax.
Definition eqb : t -> t -> bool := SFeqb.
Definition ltb : t -> t -> bool := SFltb.
Definition zero : t := S754_zero false.
Definition nan : t := S754_nan.

(** [Series.notna] on a float column. *)
Definition notna (x : t) : bool :=
  match x with S754_nan => false | _ => true end.

(** [numpy.isfinite]. *)
Definition isfinite (x : t) : bool :=
  match x with
  | S754_zero _ | S754_finite _ _ _ => true
  | S754_infinity _ | S754_nan => false
  end.

(** Rounding toward zero of a finite value, as the C cast of a double to
    an integer does; 0 on the values that are not finite. *)
Definition trunc (x : t) : Z :=
  match x with
  | S754_finite s m e =>
      let a := if 0 <=? e then Z.pos m * 2 ^ e else Z.pos m / 2 ^ (- e) in
      if s then - a else a
  | _ => 0
  end.

(** The value is a whole number. *)
Definition is_integral (x : t) : bool :=
  match x with
  | S754_zero _ => true
  | S754_finite _ m e => if 0 <=? e then true else (Z.pos m mod 2 ^ (- e) =? 0)
  | _ => false
  end.

Definition int64_min : Z := - 2 ^ 63.
Definition int64_max : Z := 2 ^ 63 - 1.
Definition in_int64 (z : Z) : bool := (int64_min <=? z) && (z <=? int64_max).

(** The literal [n / 10^k] as Python reads it: two exactly representable
    integers and one correctly rounded division (for n and 10^k below
    2^53). *)
Definition decimal (n : Z) (k : nat) : t := div (of_Z n) (of_Z (10 ^ Z.of_nat k)).

End F64.

(* ===================================================================== *)
(** ** Timestamps and [strftime] *)
(* ===================================================================== *)

(** A pandas [Timestamp], to the second (the script never formats or reads
    a finer unit). *)
Record Timestamp := mkTimestamp {
  ts_year : Z; ts_month : Z; ts_day : Z;
  ts_hour : Z; ts_minute : Z; ts_second : Z
}.

Definition pad (w : nat) (z : Z) : string := PyStr.zfill w (PyStr.str_of_Z z).

(** [strftime("%Y-%m-%d")]. *)
Definition strftime_date (t : Timestamp) : string :=
  pad 4 (ts_year t) ++ "-" ++ pad 2 (ts_month t) ++ "-" ++ pad 2 (ts_day t).

(** [strftime("%Y-%m-%d %H:%M:%S")]. *)
Definition strftime_datetime (t : Timestamp) : string :=
  strftime_date t ++ " " ++ pad 2 (ts_hour t) ++ ":" ++ pad 2 (ts_minute t)
  ++ ":" ++ pad 2 (ts_second t).

(** [strftime("%b")] in the C locale. *)
Definition strftime_b (t : Timestamp) : string :=
  nth (Z.to_nat (ts_month t - 1))
      ["Jan"; "Feb"; "Mar"; "Apr"; "May"; "Jun";
       "Jul"; "Aug"; "Sep"; "Oct"; "Nov"; "Dec"] "".

(* ===================================================================== *)
(** ** Exceptions *)
(* ===================================================================== *)

Inductive error : Type :=
| FileNotFoundError
  (** [col]: KeyError "Missing column '<name>'. Found: <columns>" *)
| MissingColumn (name : string) (found : list string)
  (** [astype("Int64")]: TypeError "cannot safely cast non-equivalent
      float64 to int64" *)
| UnsafeInt64Cast
  (** [astype(int)]: IntCastingNaNError on an infinite value *)
| IntCastingNaN.

Inductive result (A : Type) : Type :=
| Ok (a : A)
| Raise (e : error).
Arguments Ok {A} a.
Arguments Raise {A} e.

Definition bind {A B : Type} (m : result A) (f : A -> result B) : result B :=
  match m with
  | Ok a => f a
  | Raise e => Raise e
  end.

Notation "x <- m ;; k" := (bind m (fun x => k))
  (at level 61, m at next level, right associativity).

(** A column-wise operation that raises as soon as one element does. *)
Fixpoint traverse {A B : Type} (f : A -> result B) (l : list A) : result (list B) :=
  match l with
  | [] => Ok []
  | a :: r => b <- f a ;; bs <- traverse f r ;; Ok (b :: bs)
  end.

(* ===================================================================== *)
(** ** [col]: finding a required column *)
(* ===================================================================== *)

Definition norm_name (s : string) : string := PyStr.lower (PyStr.strip s).

(** The [for c in df.columns] loop of [col]. *)
Fixpoint find_column (target : string) (cols : list string) : option string :=
  match cols with
  | [] => None
  | c :: r => if String.eqb (norm_name c) target then Some c else find_column target r
  end.

Definition col (columns : list string) (name : string) : result string :=
  match find_column (norm_name name) columns with
  | Some c => Ok c
  | None => Raise (MissingColumn name columns)
  end.

(** The eight names [main] asks for, in the order of its calls. *)
Definition required_columns : list string :=
  ["Invoice"; "StockCode"; "Description"; "Quantity"; "InvoiceDate";
   "Price"; "Customer ID"; "Country"].

(** Some column of the frame is [name] up to case and to whitespace at
    both ends. *)
Definition has_column (cols : list string) (name : string) : Prop :=
  exists c, In c cols /\ norm_name c = norm_name name.

(** Some column of the frame is [name] up to case and to whitespace
    anywhere. *)
Definition has_column_modulo_spaces (cols : list string) (name : string) : Prop :=
  exists c, In c cols /\
            PyStr.lower (PyStr.remove_spaces c) = PyStr.lower (PyStr.remove_spaces name).

(* ===================================================================== *)
(** ** Tables of the SQLite database and frame operations *)
(* ===================================================================== *)

(** A table with an [INTEGER PRIMARY KEY AUTOINCREMENT] column: the rows
    in rowid order, each with its key. *)
Definition table (A : Type) : Type := list (Z * A).

(** The next key AUTOINCREMENT hands out: one more than the largest key
    of the table (the tables are created afresh, so nothing was ever
    deleted from them). *)
Definition next_rowid {A : Type} (t : table A) : Z :=
  1 + fold_right Z.max 0 (map fst t).

(** [INSERT OR IGNORE INTO t SELECT ... FROM tmp]: the rows of [tmp] one
    after the other; a row that collides with a stored row on the UNIQUE
    columns ([uniq]) is skipped. *)
Section InsertOrIgnore.
Variables (A U : Type).
Variable uniq : A -> U.
Variable U_dec : forall x y : U, {x = y} + {x <> y}.

Definition collides (t : table A) (a : A) : bool :=
  existsb (fun e => if U_dec (uniq (snd e)) (uniq a) then true else false) t.

Definition insert_row (t : table A) (a : A) : table A :=
  if collides t a then t else (t ++ [(next_rowid t, a)])%list.

Definition insert_or_ignore (t : table A) (tmp : list A) : table A :=
  fold_left insert_row tmp t.

(** The constraints the schema declares: distinct primary keys and
    distinct values on the UNIQUE columns. *)
Definition well_keyed (t : table A) : Prop :=
  NoDup (map fst t) /\ NoDup (map (fun e => uniq (snd e)) t).
End InsertOrIgnore.

(** [DataFrame.to_sql(..., if_exists="append")] into a table without
    UNIQUE columns. *)
Definition append_rows {A : Type} (t : table A) (rs : list A) : table A :=
  fold_left (fun t a => (t ++ [(next_rowid t, a)])%list) rs t.

(** [DataFrame.drop_duplicates()]: the first occurrence of every row, in
    the order of the frame. *)
Section DropDuplicates.
Variable A : Type.
Variable A_dec : forall x y : A, {x = y} + {x <> y}.

Fixpoint drop_duplicates (l : list A) : list A :=
  match l with
  | [] => []
  | a :: r =>
      a :: filter (fun x => if A_dec a x then false else true) (drop_duplicates r)
  end.
End DropDuplicates.

(** [left.merge(right, on=..., how="left")] where [right] brings one more
    column: every left row, in order, once per right row with the same
    join key, or once with a null when there is none. *)
Section MergeLeft.
Variables (L K V : Type).
Variable K_dec : forall x y : K, {x = y} + {x <> y}.
Variable on_left : L -> K.

Definition matches (right : list (V * K)) (l : L) : list V :=
  map fst (filter (fun r => if K_dec (snd r) (on_left l) then true else false) right).

Definition merge_row (right : list (V * K)) (l : L) : list (L * option V) :=
  match matches right l with
  | [] => [(l, None)]
  | vs => map (fun v => (l, Some v)) vs
  end.

Definition merge_left (left : list L) (right : list (V * K)) : list (L * option V) :=
  flat_map (merge_row right) left.
End MergeLeft.

(** [Series.isna().sum()]. *)
Definition count_na {A B : Type} (f : A -> option B) (l : list A) : nat :=
  List.length (filter (fun a => match f a with None => true | Some _ => false end) l).

(* ===================================================================== *)
(** ** Rows of the frame and of the warehouse *)
(* ===================================================================== *)

(** The row of [tmp_date] and [dim_date]. *)
Record DateRow := mkDateRow {
  d_full_date : string; d_year : Z; d_month : Z;
  d_month_name : string; d_quarter : Z
}.

Definition prod_dec {A B : Type}
  (A_dec : forall x y : A, {x = y} + {x <> y})
  (B_dec : forall x y : B, {x = y} + {x <> y})
  (p q : A * B) : {p = q} + {p <> q}.
Proof. decide equality. Defined.

Definition DateRow_dec (x y : DateRow) : {x = y} + {x <> y}.
Proof. decide equality; try apply string_dec; apply Z.eq_dec. Defined.

(** The row that [fact_out.to_sql("fact_sales")] writes; a key that the
    merge left null is [None]. *)
Record FactRow := mkFactRow {
  f_invoice_no : string;
  f_invoice_datetime : string;
  f_date_key : option Z;
  f_customer_key : option Z;
  f_product_key : option Z;
  f_country_key : option Z;
  f_quantity : Z;
  f_unit_price : F64.t;
  f_revenue : F64.t;
  f_is_return : Z
}.

(** The four dimension tables. *)
Record Dimensions := mkDimensions {
  dim_customer : table string;
  dim_product : table (string * string);
  dim_country : table string;
  dim_date : table DateRow
}.

(** The database file: four dimensions and the fact table. *)
Record Warehouse := mkWarehouse {
  dims : Dimensions;
  fact_sales : table FactRow
}.

(** What the script prints. *)
Inductive event : Type :=
| Msg (text : string)
  (** "WARNING: Missing keys after merges:" and the dictionary [missing] *)
| MissingKeys (date_key customer_key country_key product_key : nat)
  (** "fact_sales rows:" n *)
| FactRowCount (n : nat)
  (** the frame of [SELECT is_return, COUNT( * ) ... GROUP BY is_return] *)
| ReturnCounts (groups : list (Z * nat))
  (** "Exported:" and the file of one table *)
| Exported (table_name : string).

(* ===================================================================== *)
(** ** The pandas conversions *)
(* ===================================================================== *)

(** A value of the frame as [pd.read_csv] left it, and the three pandas
    conversions the script applies to such values:
    [pd.to_datetime(errors="coerce")] ([None] is [NaT]) under the date
    format of the column, [pd.to_numeric(errors="coerce")] (NaN when the
    value does not parse) and [astype(str)]. *)
Class Pandas : Type := mkPandas {
  cell : Type;
  to_datetime : cell -> option Timestamp;
  to_numeric : cell -> F64.t;
  astype_str : cell -> string
}.

(* ===================================================================== *)
(** ** The script *)
(* ===================================================================== *)

Section Pipeline.

Context {P : Pandas}.

(** A row maps a column label to its value. *)
Definition Row : Type := string -> cell.

Record DataFrame := mkDataFrame {
  columns : list string;
  rows : list Row
}.

(** The labels found by the eight calls of [col]. *)
Record Columns := mkColumns {
  InvoiceCol : string; StockCodeCol : string; DescriptionCol : string;
  QuantityCol : string; InvoiceDateCol : string; PriceCol : string;
  CustomerIdCol : string; CountryCol : string
}.

Definition resolve_columns (cs : list string) : result Columns :=
  i <- col cs "Invoice" ;;
  s <- col cs "StockCode" ;;
  d <- col cs "Description" ;;
  q <- col cs "Quantity" ;;
  t <- col cs "InvoiceDate" ;;
  p <- col cs "Price" ;;
  c <- col cs "Customer ID" ;;
  k <- col cs "Country" ;;
  Ok (mkColumns i s d q t p c k).

(** *** Cleaning: the three filters *)

(** A row of the frame once the date, quantity and price columns hold
    parsed values. *)
Record Parsed := mkParsed {
  p_row : Row;
  p_InvoiceDate : Timestamp;
  p_Quantity : F64.t;
  p_Price : F64.t
}.

(** [to_datetime] on the date column, then [df[df[InvoiceDateCol].notna()]].
    Every value is read under the format of the column, which [to_datetime]
    stands for. *)
Definition parse_dates (c : Columns) (rs : list Row) : list (Row * Timestamp) :=
  flat_map (fun r => match to_datetime (r (InvoiceDateCol c)) with
                     | Some t => [(r, t)]
                     | None => []
                     end) rs.

(** [to_numeric] on quantity and price, then the rows where both are
    not NaN. *)
Definition parse_numbers (c : Columns) (rs : list (Row * Timestamp)) : list Parsed :=
  filter (fun p => F64.notna (p_Quantity p) && F64.notna (p_Price p))
         (map (fun rt => mkParsed (fst rt) (snd rt)
                           (to_numeric (fst rt (QuantityCol c)))
                           (to_numeric (fst rt (PriceCol c)))) rs).

(** [df[(df[QuantityCol] != 0) & (df[PriceCol] > 0)]]. *)
Definition valid (p : Parsed) : bool :=
  negb (F64.eqb (p_Quantity p) F64.zero) && F64.ltb F64.zero (p_Price p).

Definition filter_rows (c : Columns) (rs : list Row) : list Parsed :=
  filter valid (parse_numbers c (parse_dates c rs)).

(** The number of rows that the third filter removes: those with a zero
    quantity or a price that is not positive. *)
Definition dropped_invalid (c : Columns) (rs : list Row) : nat :=
  (List.length (parse_numbers c (parse_dates c rs))
   - List.length (filter_rows c rs))%nat.

(** *** Cleaning: normalisation and derived columns *)

(** [astype(str).str.strip()] on a text column. *)
Definition text (v : cell) : string := PyStr.strip (astype_str v).

(** [astype("Int64")] on a float64 column: NaN becomes [<NA>], a whole
    number that fits in 64 bits is kept, anything else is refused.  (On
    an int64 column, which holds whole numbers only, the cast changes
    nothing.) *)
Definition astype_Int64 (x : F64.t) : result (option Z) :=
  if F64.notna x then
    if F64.isfinite x && F64.is_integral x && F64.in_int64 (F64.trunc x)
    then Ok (Some (F64.trunc x))
    else Raise UnsafeInt64Cast
  else Ok None.

(** [astype(str)] on a nullable integer column. *)
Definition Int64_str (v : option Z) : string :=
  match v with
  | Some z => PyStr.str_of_Z z
  | None => "<NA>"
  end.

(** The three lines on customer ids, for one value of the column. *)
Definition normalize_customer_id (v : cell) : result string :=
  n <- astype_Int64 (to_numeric v) ;;
  let s := PyStr.strip (Int64_str n) in
  Ok (if PyStr.mem s ["<NA>"; "nan"; "None"] then "GUEST" else s).

(** [astype(int)] on a float64 column: refused when a value is not
    finite, rounding toward zero otherwise (a value outside 64 bits
    comes out as the smallest integer, as the x86-64 conversion gives).
    (On an int64 column the cast changes nothing.) *)
Definition astype_int (x : F64.t) : result Z :=
  if F64.isfinite x
  then Ok (if F64.in_int64 (F64.trunc x) then F64.trunc x else F64.int64_min)
  else Raise IntCastingNaN.

(** A row of the frame after the cleaning section: the parsed source
    columns and the derived ones.  (A source column that already bears the
    name of a derived one, as [quantity], [description] or [country] can,
    is overwritten by the value derived from it, and only that value is
    read afterwards.) *)
Record Cleaned := mkCleaned {
  c_src : Parsed;
  customer_id : string;
  invoice_no : string;
  invoice_datetime : string;
  full_date : string;
  year : Z;
  month : Z;
  month_name : string;
  quarter : Z;
  stock_code : string;
  description : string;
  country : string;
  quantity : Z;
  unit_price : F64.t;
  revenue : F64.t;
  is_return : Z
}.

(** The column [customer_id], for the whole frame. *)
Definition add_customer_id (c : Columns) (p : Parsed) : result (Parsed * string) :=
  id <- normalize_customer_id (p_row p (CustomerIdCol c)) ;;
  Ok (p, id).

(** The derived columns of one row; [quantity] is the only one whose
    conversion can raise. *)
Definition derive (c : Columns) (pi : Parsed * string) : result Cleaned :=
  let p := fst pi in
  let t := p_InvoiceDate p in
  let m := ts_month t in
  q <- astype_int (p_Quantity p) ;;
  Ok {| c_src := p;
        customer_id := snd pi;
        invoice_no := text (p_row p (InvoiceCol c));
        invoice_datetime := strftime_datetime t;
        full_date := strftime_date t;
        year := ts_year t;
        month := m;
        month_name := strftime_b t;
        quarter := (m - 1) / 3 + 1;
        stock_code := text (p_row p (StockCodeCol c));
        description := text (p_row p (DescriptionCol c));
        country := text (p_row p (CountryCol c));
        quantity := q;
        unit_price := p_Price p;
        revenue := F64.mul (F64.of_Z q) (p_Price p);
        is_return := if q <? 0 then 1 else 0 |}.

(** Lines 50 to 91: the filters, then the customer ids of the whole
    column, then the derived columns. *)
Definition clean (c : Columns) (rs : list Row) : result (list Cleaned) :=
  ids <- traverse (add_customer_id c) (filter_rows c rs) ;;
  traverse (derive c) ids.

(** *** The database *)

(** [DROP TABLE IF EXISTS] and [CREATE TABLE] for the five tables:
    whatever the file held, they are empty afterwards. *)
Definition create_schema (db : Warehouse) : Warehouse :=
  mkWarehouse (mkDimensions [] [] [] []) [].

Definition product_of (r : Cleaned) : string * string :=
  (stock_code r, description r).

Definition date_row_of (r : Cleaned) : DateRow :=
  mkDateRow (full_date r) (year r) (month r) (month_name r) (quarter r).

Definition pair_dec := prod_dec string_dec string_dec.

(** "Loading dimensions": for each dimension, the distinct rows of the
    frame go through a temporary table into the dimension. *)
Definition load_dimensions (db : Warehouse) (df : list Cleaned) : Warehouse :=
  let d := dims db in
  mkWarehouse
    (mkDimensions
       (insert_or_ignore (fun x => x) string_dec (dim_customer d)
          (drop_duplicates string_dec (map customer_id df)))
       (insert_or_ignore (fun x => x) pair_dec (dim_product d)
          (drop_duplicates pair_dec (map product_of df)))
       (insert_or_ignore (fun x => x) string_dec (dim_country d)
          (drop_duplicates string_dec (map country df)))
       (insert_or_ignore d_full_date string_dec (dim_date d)
          (drop_duplicates DateRow_dec (map date_row_of df))))
    (fact_sales db).

(** A row of [fact] after the four merges: the frame's row and the four
    key columns, in the order the merges add them. *)
Definition Merged : Type :=
  (((Cleaned * option Z) * option Z) * option Z) * option Z.

Definition m_row (x : Merged) : Cleaned := fst (fst (fst (fst x))).
Definition m_date_key (x : Merged) : option Z := snd (fst (fst (fst x))).
Definition m_customer_key (x : Merged) : option Z := snd (fst (fst x)).
Definition m_country_key (x : Merged) : option Z := snd (fst x).
Definition m_product_key (x : Merged) : option Z := snd x.

(** [SELECT date_key, full_date FROM dim_date]. *)
Definition date_keys (d : Dimensions) : list (Z * string) :=
  map (fun e => (fst e, d_full_date (snd e))) (dim_date d).

(** The four [merge] calls against the frames read back from the
    dimension tables. *)
Definition merge_keys (d : Dimensions) (df : list Cleaned) : list Merged :=
  let m1 := merge_left string_dec full_date df (date_keys d) in
  let m2 := merge_left string_dec (fun x => customer_id (fst x)) m1 (dim_customer d) in
  let m3 := merge_left string_dec (fun x => country (fst (fst x))) m2 (dim_country d) in
  merge_left pair_dec (fun x => product_of (fst (fst (fst x)))) m3 (dim_product d).

(** A fact row that found its four keys. *)
Definition resolved (d : Dimensions) (r : Cleaned) (x : Merged) : Prop :=
  m_row x = r /\
  (exists k, m_date_key x = Some k /\ In (k, full_date r) (date_keys d)) /\
  (exists k, m_customer_key x = Some k /\ In (k, customer_id r) (dim_customer d)) /\
  (exists k, m_country_key x = Some k /\ In (k, country r) (dim_country d)) /\
  (exists k, m_product_key x = Some k /\ In (k, product_of r) (dim_product d)).

(** Dimensions that satisfy their UNIQUE constraints and hold every
    natural key of the frame. *)
Definition covers (d : Dimensions) (df : list Cleaned) : Prop :=
  (NoDup (map snd (date_keys d)) /\
   forall r, In r df -> In (full_date r) (map snd (date_keys d))) /\
  (NoDup (map snd (dim_customer d)) /\
   forall r, In r df -> In (customer_id r) (map snd (dim_customer d))) /\
  (NoDup (map snd (dim_country d)) /\
   forall r, In r df -> In (country r) (map snd (dim_country d))) /\
  (NoDup (map snd (dim_product d)) /\
   forall r, In r df -> In (product_of r) (map snd (dim_product d))).

(** A fact row with a null key: one of its four lookups found nothing. *)
Definition unresolved (x : Merged) : Prop :=
  m_date_key x = None \/ m_customer_key x = None \/
  m_country_key x = None \/ m_product_key x = None.

(** [fact[[date_key, customer_key, country_key, product_key]].isna().sum()]. *)
Definition missing (fact : list Merged) : nat * nat * nat * nat :=
  (count_na m_date_key fact, count_na m_customer_key fact,
   count_na m_country_key fact, count_na m_product_key fact).

(** The [if any(v > 0 ...)] and its [print]. *)
Definition warn_missing (fact : list Merged) : list event :=
  let '(d, c, k, p) := missing fact in
  if (0 <? d)%nat || (0 <? c)%nat || (0 <? k)%nat || (0 <? p)%nat
  then [MissingKeys d c k p] else [].

Definition fact_out (x : Merged) : FactRow :=
  let r := m_row x in
  mkFactRow (invoice_no r) (invoice_datetime r)
            (m_date_key x) (m_customer_key x) (m_product_key x) (m_country_key x)
            (quantity r) (unit_price r) (revenue r) (is_return r).

(** [SELECT is_return, COUNT( * ) FROM fact_sales GROUP BY is_return]. *)
Definition count_is_return (v : Z) (t : table FactRow) : nat :=
  List.length (filter (fun e => f_is_return (snd e) =? v) t).

Definition return_counts (t : table FactRow) : list (Z * nat) :=
  filter (fun g => (0 <? snd g)%nat)
         [(0, count_is_return 0 t); (1, count_is_return 1 t)].

Definition exports : list event :=
  map Exported ["dim_date"; "dim_customer"; "dim_product"; "dim_country"; "fact_sales"].

(** "Loading fact table" to the end of the script: the merges, the
    warning, the load of [fact_sales], the sanity checks and the
    exports. *)
Definition load_facts (db : Warehouse) (df : list Cleaned) : Warehouse * list event :=
  let fact := merge_keys (dims db) df in
  let db' := mkWarehouse (dims db) (append_rows (fact_sales db) (map fact_out fact)) in
  (db',
   ([Msg "Loading fact table..."]
    ++ warn_missing fact
    ++ [FactRowCount (List.length (fact_sales db'));
        ReturnCounts (return_counts (fact_sales db'));
        Msg "Exporting tables for Power BI..."]
    ++ exports ++ [Msg "DONE"])%list).

(** [main]: [csv] is the frame read from the input file, or [None] when
    the file does not exist; [db] is what the database file held before
    the run. *)
Definition main (db : Warehouse) (csv : option DataFrame)
  : result (Warehouse * list event) :=
  match csv with
  | None => Raise FileNotFoundError
  | Some df =>
      c <- resolve_columns (columns df) ;;
      cleaned <- clean c (rows df) ;;
      let db1 := load_dimensions (create_schema db) cleaned in
      let '(db2, out) := load_facts db1 cleaned in
      Ok (db2,
          ([Msg "Loading CSV..."; Msg "Building SQLite DB";
            Msg "Creating schema..."; Msg "Loading dimensions..."]
           ++ out)%list)
  end.

End Pipeline.


(* ===================================================================== *)
(** ** Vocabulary of the properties *)
(* ===================================================================== *)

(** The table that holds the rows [l], in order, under the keys [k],
    [k + 1], ... *)
Fixpoint numbered {A : Type} (k : Z) (l : list A) : table A :=
  match l with
  | [] => []
  | a :: r => (k, a) :: numbered (k + 1) r
  end.

(** A parsed customer id that [astype("Int64")] accepts: NaN, or a whole
    number within 64 bits. *)
Definition customer_id_ok (x : F64.t) : bool :=
  negb (F64.notna x)
  || (F64.isfinite x && F64.is_integral x && F64.in_int64 (F64.trunc x)).

Section Vocabulary.

Context {P : Pandas}.

(** A filtered row on which neither of the two casts raises. *)
Definition castable (c : Columns) (p : Parsed) : bool :=
  customer_id_ok (to_numeric (p_row p (CustomerIdCol c)))
  && F64.isfinite (p_Quantity p).

(** The database and the output of a run in which no row passes the
    filters. *)
Definition empty_run : Warehouse * list event :=
  (mkWarehouse (mkDimensions [] [] [] []) [],
   ([Msg "Loading CSV..."; Msg "Building SQLite DB";
     Msg "Creating schema..."; Msg "Loading dimensions...";
     Msg "Loading fact table..."; FactRowCount 0; ReturnCounts [];
     Msg "Exporting tables for Power BI..."]
    ++ exports ++ [Msg "DONE"])%list).

End Vocabulary.

(* ===================================================================== *)
(** ** A concrete instance: text cells *)
(* ===================================================================== *)

(** The fragment of pandas' parsers that the examples below need.  A cell
    is the text of a CSV field, or [None] for an empty field (which
    [read_csv] turns into NaN).  Numbers are plain decimals
    ([-]digits[.digits]), dates are [YYYY-MM-DD], optionally followed by
    [HH:MM] or [HH:MM:SS]. *)
Module Sample.

Definition text_cell : Type := option string.

Definition digit (c : ascii) : option Z :=
  let n := N_of_ascii c in
  if ((48 <=? n) && (n <=? 57))%N then Some (Z.of_N n - 48) else None.

Fixpoint digits_acc (s : string) (acc : Z) : option Z :=
  match s with
  | EmptyString => Some acc
  | String c r =>
      match digit c with
      | Some d => digits_acc r (10 * acc + d)
      | None => None
      end
  end.

(** A non-empty run of decimal digits. *)
Definition digits (s : string) : option Z :=
  match s with
  | EmptyString => None
  | _ => digits_acc s 0
  end.

Fixpoint split_dot (s : string) : string * option string :=
  match s with
  | EmptyString => (EmptyString, None)
  | String c r =>
      if Ascii.eqb c "." then (EmptyString, Some r)
      else let '(a, b) := split_dot r in (String c a, b)
  end.

Definition unsigned_decimal (s : string) : F64.t :=
  match split_dot s with
  | (i, None) =>
      match digits i with
      | Some n => F64.of_Z n
      | None => F64.nan
      end
  | (i, Some f) =>
      match digits i, digits_acc f 0 with
      | Some n, Some m =>
          let k := String.length f in
          F64.decimal (n * 10 ^ Z.of_nat k + m) k
      | _, _ => F64.nan
      end
  end.

Definition to_numeric (v : text_cell) : F64.t :=
  match v with
  | None => F64.nan
  | Some s =>
      match PyStr.strip s with
      | String "-" r => SFopp (unsigned_decimal r)
      | r => unsigned_decimal r
      end
  end.

Definition field (from len : nat) (s : string) : option Z :=
  digits (substring from len s).

Definition sep (at_ : nat) (c : string) (s : string) : bool :=
  String.eqb (substring at_ 1 s) c.

Definition in_range (lo hi : Z) (v : option Z) : option Z :=
  match v with
  | Some z => if (lo <=? z) && (z <=? hi) then Some z else None
  | None => None
  end.

Definition parse_date (s : string) : option (Z * Z * Z) :=
  match in_range 1677 2262 (field 0 4 s),
        in_range 1 12 (field 5 2 s),
        in_range 1 31 (field 8 2 s) with
  | Some y, Some m, Some d =>
      if sep 4 "-" s && sep 7 "-" s then Some (y, m, d) else None
  | _, _, _ => None
  end.

Definition parse_time (s : string) : option (Z * Z * Z) :=
  match String.length s with
  | 10%nat => Some (0, 0, 0)
  | 16%nat =>
      match in_range 0 23 (field 11 2 s), in_range 0 59 (field 14 2 s) with
      | Some h, Some mi => if sep 10 " " s && sep 13 ":" s then Some (h, mi, 0) else None
      | _, _ => None
      end
  | 19%nat =>
      match in_range 0 23 (field 11 2 s), in_range 0 59 (field 14 2 s),
            in_range 0 59 (field 17 2 s) with
      | Some h, Some mi, Some se =>
          if sep 10 " " s && sep 13 ":" s && sep 16 ":" s then Some (h, mi, se) else None
      | _, _, _ => None
      end
  | _ => None
  end.

Definition to_datetime (v : text_cell) : option Timestamp :=
  match v with
  | None => None
  | Some s =>
      match parse_date s, parse_time s with
      | Some (y, m, d), Some (h, mi, se) => Some (mkTimestamp y m d h mi se)
      | _, _ => None
      end
  end.

Definition astype_str (v : text_cell) : string :=
  match v with
  | None => "nan"
  | Some s => s
  end.

#[export] Instance pandas : Pandas := mkPandas to_datetime to_numeric astype_str.

(** A row given by its fields; a label that is not listed is an empty
    field. *)
Fixpoint row (fields : list (string * string)) : Row :=
  fun label =>
    match fields with
    | [] => None
    | (l, v) :: r => if String.eqb l label then Some v else row r label
    end.

Definition header : list string :=
  ["Invoice"; "StockCode"; "Description"; "Quantity"; "InvoiceDate";
   "Price"; "Customer ID"; "Country"].

(** A CSV line under [header]. *)
Definition line (invoice stock descr qty date price cust country : string) : Row :=
  row [("Invoice", invoice); ("StockCode", stock); ("Description", descr);
       ("Quantity", qty); ("InvoiceDate", date); ("Price", price);
       ("Customer ID", cust); ("Country", country)].

(** The same line with an empty [Customer ID] field. *)
Definition guest_line (invoice stock descr qty date price country : string) : Row :=
  row [("Invoice", invoice); ("StockCode", stock); ("Description", descr);
       ("Quantity", qty); ("InvoiceDate", date); ("Price", price);
       ("Country", country)].

Definition frame (ls : list (Row)) : option DataFrame :=
  Some (mkDataFrame header ls).

Definition empty_db : Warehouse := mkWarehouse (mkDimensions [] [] [] []) [].

Definition run (csv : option DataFrame) : result (Warehouse * list event) :=
  main empty_db csv.

Definition cleaned (ls : list (Row)) : result (list Cleaned) :=
  c <- resolve_columns header ;;
  clean c ls.

(** The invoice line of the specification's scenario. *)
Definition lantern : Row :=
  line "536365" "71053" "WHITE METAL LANTERN" "6" "2010-12-01 08:26" "3.39"
       "17850" "United Kingdom".

(** The columns that the eight lookups find under [header]. *)
Definition header_columns : Columns :=
  mkColumns "Invoice" "StockCode" "Description" "Quantity" "InvoiceDate"
            "Price" "Customer ID" "Country".

(** A line with half a unit as its quantity. *)
Definition half_unit : Row :=
  line "536366" "22633" "HAND WARMER UNION JACK" "0.5" "2010-12-01 08:28" "1.85"
       "17850" "United Kingdom".

(** A line with quantity 0 and a line with price -1. *)
Definition zero_quantity : Row :=
  line "536367" "84879" "ASSORTED COLOUR BIRD ORNAMENT" "0" "2010-12-01 08:34" "1.69"
       "13047" "United Kingdom".

Definition negative_price : Row :=
  line "536368" "22960" "JAM MAKING SET WITH JARS" "3" "2010-12-01 08:34" "-1"
       "13047" "United Kingdom".

(** A return. *)
Definition returned : Row :=
  line "C536379" "D" "Discount" "-1" "2010-12-01 09:41" "27.50" "14527" "United Kingdom".

(** Lines whose customer id has a fractional part. *)
Definition fractional_customer : Row :=
  line "536369" "21756" "BATH BUILDING BLOCK WORD" "3" "2010-12-01 08:35" "5.95"
       "12345.7" "United Kingdom".

Definition fractional_customer' : Row :=
  line "536370" "22728" "ALARM CLOCK BAKELIKE PINK" "24" "2010-12-01 08:45" "3.75"
       "12583.5" "France".

(** A line with quantity 0 whose customer id has a fractional part. *)
Definition dropped_fractional : Row :=
  line "536372" "22632" "HAND WARMER RED POLKA DOT" "0" "2010-12-01 09:01" "1.85"
       "12345.7" "United Kingdom".

(** A customer id written as a float, and a line without customer id. *)
Definition float_customer : Row :=
  line "536371" "22086" "PAPER CHAIN KIT 50'S CHRISTMAS" "80" "2010-12-01 09:00" "2.55"
       "12345.0" "United Kingdom".

Definition guest : Row :=
  guest_line "536544" "21773" "DECORATIVE ROSE BATHROOM BOTTLE" "1" "2010-12-01 14:32"
             "2.51" "United Kingdom".

(** The lantern's stock code under another description. *)
Definition lantern_renamed : Row :=
  line "536373" "71053" "WHITE MOROCCAN METAL LANTERN" "6" "2010-12-01 09:02" "3.39"
       "17850" "United Kingdom".

(** The header of the first edition of the data set. *)
Definition old_header : list string :=
  ["Invoice"; "StockCode"; "Description"; "Quantity"; "InvoiceDate";
   "Price"; "CustomerID"; "Country"].

(** A database whose customer dimension is empty. *)
Definition no_customers : Warehouse :=
  mkWarehouse
    (mkDimensions []
                  [(1, ("71053", "WHITE METAL LANTERN"))]
                  [(1, "United Kingdom")]
                  [(1, mkDateRow "2010-12-01" 2010 12 "Dec" 4)])
    [].

Definition unwrap {A : Type} (r : result (list A)) : list A :=
  match r with
  | Ok l => l
  | Raise _ => []
  end.

Definition unwrap_run (r : result (Warehouse * list event)) : Warehouse * list event :=
  match r with
  | Ok x => x
  | Raise _ => (empty_db, [])
  end.

Definition filtered (ls : list (Row)) : list Parsed :=
  filter_rows header_columns ls.

Definition dropped (ls : list (Row)) : nat :=
  dropped_invalid header_columns ls.

(** The row of the frame for a line whose date reads as [t]. *)
Definition parsed (r : Row) (t : Timestamp) : Parsed :=
  mkParsed r t (to_numeric (r "Quantity")) (to_numeric (r "Price")).

(** The lantern line under [old_header]. *)
Definition old_lantern : Row :=
  row [("Invoice", "536365"); ("StockCode", "71053");
       ("Description", "WHITE METAL LANTERN"); ("Quantity", "6");
       ("InvoiceDate", "2010-12-01 08:26"); ("Price", "3.39");
       ("CustomerID", "17850"); ("Country", "United Kingdom")].

(** A small file: a float customer id, a guest, a return, and the
    lantern under two descriptions. *)
Definition day : list (Row) :=
  [float_customer; guest; returned; lantern; lantern_renamed].

Definition day_run : Warehouse * list event := unwrap_run (run (frame day)).

(** A file whose two lines are dropped by the third filter. *)
Definition noise : list Row := [zero_quantity; negative_price].

(** The lantern line with blanks around its text fields. *)
Definition padded_lantern : Row :=
  line " 536365" "71053 " "  WHITE METAL LANTERN " "6" "2010-12-01 08:26" "3.39"
       "17850" " United Kingdom  ".

(** A header in other spellings, with a second column that matches
    "Invoice". *)
Definition loose_header : list string :=
  [" INVOICE"; "invoice"; "stockcode "; "Description"; "QUANTITY"; "InvoiceDate";
   "price"; " Customer ID "; "Country"].

End Sample.

(* ===================================================================== *)
(** * Properties *)
(* ===================================================================== *)

(** ** Strings *)

Lemma rstrip_no_space (s : string) :
  PyStr.all_chars (fun c => negb (PyStr.is_space c)) s = true -> PyStr.rstrip s = s.
Proof.
  induction s as [|c r IH]; simpl; [reflexivity|].
  rewrite andb_true_iff, negb_true_iff; intros [Hc Hr].
  rewrite (IH Hr), Hc; destruct r; reflexivity.
Qed.

Lemma strip_no_space (s : string) :
  PyStr.all_chars (fun c => negb (PyStr.is_space c)) s = true -> PyStr.strip s = s.
Proof.
  intro H; unfold PyStr.strip.
  assert (E : PyStr.lstrip s = s).
  { destruct s as [|c r]; simpl in *; [reflexivity|].
    apply andb_true_iff in H; destruct H as [Hc _].
    apply negb_true_iff in Hc; rewrite Hc; reflexivity. }
  rewrite E; apply rstrip_no_space, H.
Qed.

Lemma all_chars_impl (f g : ascii -> bool) (s : string) :
  (forall c, f c = true -> g c = true) ->
  PyStr.all_chars f s = true -> PyStr.all_chars g s = true.
Proof.
  intro Hfg; induction s as [|c r IH]; simpl; [reflexivity|].
  rewrite !andb_true_iff; intros [Hc Hr]; auto.
Qed.

Lemma numeric_char_no_space (c : ascii) :
  PyStr.is_numeric_char c = true -> negb (PyStr.is_space c) = true.
Proof.
  unfold PyStr.is_numeric_char, PyStr.is_space.
  destruct (N_of_ascii c) as [|n]; [discriminate|].
  rewrite negb_true_iff, !orb_true_iff, !orb_false_iff, !andb_true_iff,
    !andb_false_iff, !N.leb_le, !N.leb_gt, !N.eqb_eq, !N.eqb_neq.
  lia.
Qed.

Lemma digits_numeric (d : Decimal.uint) :
  PyStr.all_chars PyStr.is_numeric_char (NilEmpty.string_of_uint d) = true.
Proof.
  induction d; cbn [NilEmpty.string_of_uint PyStr.all_chars];
    try rewrite IHd; reflexivity.
Qed.

Lemma string_of_uint_numeric (d : Decimal.uint) :
  PyStr.all_chars PyStr.is_numeric_char (NilZero.string_of_uint d) = true.
Proof.
  destruct d; try reflexivity; apply digits_numeric.
Qed.

(** The decimal notation of an integer: digits, after a minus sign when
    it is negative. *)
Lemma str_of_Z_numeric (z : Z) :
  PyStr.all_chars PyStr.is_numeric_char (PyStr.str_of_Z z) = true.
Proof.
  unfold PyStr.str_of_Z, NilZero.string_of_int; destruct z; cbn [Z.to_int].
  - reflexivity.
  - apply string_of_uint_numeric.
  - cbn [PyStr.all_chars]; rewrite string_of_uint_numeric; reflexivity.
Qed.

Lemma strip_str_of_Z (z : Z) : PyStr.strip (PyStr.str_of_Z z) = PyStr.str_of_Z z.
Proof.
  apply strip_no_space, (all_chars_impl _ _ _ numeric_char_no_space), str_of_Z_numeric.
Qed.

(** No integer prints as one of the three texts that stand for a missing
    value. *)
Lemma str_of_Z_not_missing (z : Z) :
  PyStr.mem (PyStr.str_of_Z z) ["<NA>"; "nan"; "None"] = false.
Proof.
  pose proof (str_of_Z_numeric z) as H.
  unfold PyStr.mem.
  destruct (String.eqb_spec (PyStr.str_of_Z z) "<NA>") as [E|_];
    [rewrite E in H; discriminate|].
  destruct (String.eqb_spec (PyStr.str_of_Z z) "nan") as [E|_];
    [rewrite E in H; discriminate|].
  destruct (String.eqb_spec (PyStr.str_of_Z z) "None") as [E|_];
    [rewrite E in H; discriminate|].
  reflexivity.
Qed.

(** ** Exceptions and column-wise operations *)

Lemma bind_Ok {A B : Type} (m : result A) (f : A -> result B) (b : B) :
  bind m f = Ok b -> exists a, m = Ok a /\ f a = Ok b.
Proof.
  destruct m as [a|e]; simpl; intro H; [exists a; auto | discriminate].
Qed.

Lemma traverse_Ok {A B : Type} (f : A -> result B) (l : list A) (bs : list B) :
  traverse f l = Ok bs -> Forall2 (fun a b => f a = Ok b) l bs.
Proof.
  revert bs; induction l as [|a r IH]; simpl; intros bs H.
  - inversion H; constructor.
  - apply bind_Ok in H; destruct H as (b & Hb & H).
    apply bind_Ok in H; destruct H as (bs' & Hr & H).
    inversion H; subst; constructor; auto.
Qed.

Lemma traverse_total {A B : Type} (f : A -> result B) (l : list A) :
  (forall a, In a l -> exists b, f a = Ok b) ->
  exists bs, traverse f l = Ok bs.
Proof.
  induction l as [|a r IH]; simpl; intro H.
  - eexists; reflexivity.
  - destruct (H a (or_introl eq_refl)) as (b & Hb); rewrite Hb; simpl.
    destruct IH as (bs & Hbs); [intros; apply H; auto|].
    rewrite Hbs; simpl; eexists; reflexivity.
Qed.

(** When [f] can raise one exception only, the column-wise operation
    raises it as soon as one element does. *)
Lemma traverse_Raise {A B : Type} (f : A -> result B) (e0 : error) (l : list A) :
  (forall a e, f a = Raise e -> e = e0) ->
  (exists a, In a l /\ f a = Raise e0) ->
  traverse f l = Raise e0.
Proof.
  intros Hone; induction l as [|a r IH]; simpl; intros (x & Hin & Hx).
  - contradiction.
  - destruct (f a) as [b|e] eqn:Ha; simpl.
    + destruct Hin as [->|Hin]; [congruence|].
      rewrite IH; [reflexivity | exists x; auto].
    + f_equal; eauto.
Qed.

Lemma Forall2_length_eq {A B : Type} (R : A -> B -> Prop) l l' :
  Forall2 R l l' -> List.length l = List.length l'.
Proof. induction 1; simpl; congruence. Qed.

Lemma Forall2_in_r {A B : Type} (R : A -> B -> Prop) l l' b :
  Forall2 R l l' -> In b l' -> exists a, In a l /\ R a b.
Proof.
  induction 1; simpl; intros Hin; [contradiction|].
  destruct Hin as [<-|Hin]; [eauto|].
  destruct (IHForall2 Hin) as (a & ? & ?); eauto.
Qed.

Lemma Forall2_map_eq {A B C : Type} (g : A -> C) (h : B -> C) l l' :
  Forall2 (fun a b => g a = h b) l l' -> map g l = map h l'.
Proof. induction 1; simpl; congruence. Qed.

(** ** [drop_duplicates] *)

Section DropDuplicatesFacts.
Variable A : Type.
Variable A_dec : forall x y : A, {x = y} + {x <> y}.

Lemma drop_duplicates_In (l : list A) (x : A) :
  In x (drop_duplicates A_dec l) <-> In x l.
Proof.
  induction l as [|a r IH]; simpl; [tauto|].
  rewrite filter_In, IH.
  destruct (A_dec a x) as [->|Hne]; [tauto|].
  split; [intros [|[]]; auto | intros [|]; [tauto | auto]].
Qed.

Lemma drop_duplicates_NoDup (l : list A) : NoDup (drop_duplicates A_dec l).
Proof.
  induction l as [|a r IH]; simpl; constructor.
  - rewrite filter_In; intros [_ H].
    destruct (A_dec a a); [discriminate | congruence].
  - apply NoDup_filter; assumption.
Qed.
End DropDuplicatesFacts.

(** ** Tables with AUTOINCREMENT keys and UNIQUE columns *)

Lemma le_fold_max (l : list Z) (k : Z) : In k l -> k <= fold_right Z.max 0 l.
Proof.
  induction l as [|x r IH]; intros H; [contradiction|].
  change (fold_right Z.max 0 (x :: r)) with (Z.max x (fold_right Z.max 0 r)).
  destruct H as [<-|H]; [apply Z.le_max_l|].
  etransitivity; [apply IH, H | apply Z.le_max_r].
Qed.

Lemma rowid_below_next {A : Type} (t : table A) (k : Z) :
  In k (map fst t) -> k < next_rowid t.
Proof.
  intro H; apply le_fold_max in H; unfold next_rowid; lia.
Qed.

Section InsertOrIgnoreFacts.
Variables (A U : Type).
Variable uniq : A -> U.
Variable U_dec : forall x y : U, {x = y} + {x <> y}.

Lemma collides_true (t : table A) (a : A) :
  collides uniq U_dec t a = true <-> In (uniq a) (map (fun e => uniq (snd e)) t).
Proof.
  unfold collides; rewrite existsb_exists, in_map_iff; split.
  - intros (e & He & H); exists e; destruct (U_dec _ _); [auto | discriminate].
  - intros (e & He & H); exists e; split; [assumption|].
    destruct (U_dec _ _); [reflexivity | congruence].
Qed.

Lemma insert_row_well_keyed (t : table A) (a : A) :
  well_keyed uniq t -> well_keyed uniq (insert_row uniq U_dec t a).
Proof.
  intros [Hk Hu]; unfold insert_row.
  destruct (collides uniq U_dec t a) eqn:Hc; [split; assumption|].
  split; rewrite map_app; simpl.
  - apply NoDup_app; [assumption | repeat constructor; simpl; tauto |].
    intros k Hin [<-|[]].
    apply rowid_below_next in Hin; lia.
  - apply NoDup_app; [assumption | repeat constructor; simpl; tauto |].
    intros u Hin [<-|[]].
    apply collides_true in Hin; congruence.
Qed.

Lemma insert_row_incl (t : table A) (a : A) (e : Z * A) :
  In e t -> In e (insert_row uniq U_dec t a).
Proof.
  unfold insert_row; destruct (collides _ _ _ _); [auto|].
  intro; apply in_or_app; auto.
Qed.

Lemma insert_row_present (t : table A) (a : A) :
  In (uniq a) (map (fun e => uniq (snd e)) (insert_row uniq U_dec t a)).
Proof.
  unfold insert_row; destruct (collides uniq U_dec t a) eqn:Hc.
  - apply collides_true; assumption.
  - rewrite map_app; apply in_or_app; right; simpl; auto.
Qed.

Lemma insert_row_origin (t : table A) (a : A) (e : Z * A) :
  In e (insert_row uniq U_dec t a) -> In e t \/ snd e = a.
Proof.
  unfold insert_row; destruct (collides _ _ _ _); [auto|].
  intro H; apply in_app_or in H; destruct H as [|[<-|[]]]; auto.
Qed.

Lemma insert_or_ignore_well_keyed (tmp : list A) (t : table A) :
  well_keyed uniq t -> well_keyed uniq (insert_or_ignore uniq U_dec t tmp).
Proof.
  unfold insert_or_ignore; revert t; induction tmp as [|a r IH]; simpl; intros t H.
  - assumption.
  - apply IH, insert_row_well_keyed, H.
Qed.

Lemma insert_or_ignore_incl (tmp : list A) (t : table A) (e : Z * A) :
  In e t -> In e (insert_or_ignore uniq U_dec t tmp).
Proof.
  unfold insert_or_ignore; revert t; induction tmp as [|a r IH]; simpl; intros t H.
  - assumption.
  - apply IH, insert_row_incl, H.
Qed.

(** Every row of the temporary table is represented afterwards. *)
Lemma insert_or_ignore_present (tmp : list A) (t : table A) (a : A) :
  In a tmp ->
  In (uniq a) (map (fun e => uniq (snd e)) (insert_or_ignore uniq U_dec t tmp)).
Proof.
  unfold insert_or_ignore; revert t; induction tmp as [|b r IH]; simpl; intros t H.
  - contradiction.
  - destruct H as [->|H]; [|apply IH, H].
    pose proof (insert_row_present t a) as Hp.
    apply in_map_iff in Hp; destruct Hp as (e & He & Hin).
    apply in_map_iff; exists e; split; [assumption|].
    apply (insert_or_ignore_incl r), Hin.
Qed.

(** Nothing else is stored. *)
Lemma insert_or_ignore_origin (tmp : list A) (t : table A) (e : Z * A) :
  In e (insert_or_ignore uniq U_dec t tmp) -> In e t \/ In (snd e) tmp.
Proof.
  unfold insert_or_ignore; revert t; induction tmp as [|b r IH]; simpl; intros t H.
  - auto.
  - destruct (IH _ H) as [H'|H']; [|auto].
    destruct (insert_row_origin _ _ _ H'); auto.
Qed.
End InsertOrIgnoreFacts.

Lemma well_keyed_nil {A U : Type} (uniq : A -> U) : well_keyed uniq (@nil (Z * A)).
Proof. split; constructor. Qed.

Lemma append_rows_rows {A : Type} (rs : list A) (t : table A) :
  map snd (append_rows t rs) = (map snd t ++ rs)%list.
Proof.
  unfold append_rows; revert t; induction rs as [|a r IH]; simpl; intro t.
  - rewrite app_nil_r; reflexivity.
  - rewrite IH, map_app; simpl; rewrite <- app_assoc; reflexivity.
Qed.

Lemma append_rows_length {A : Type} (rs : list A) (t : table A) :
  List.length (append_rows t rs) = (List.length t + List.length rs)%nat.
Proof.
  rewrite <- (length_map snd), append_rows_rows, length_app, length_map; reflexivity.
Qed.

(** ** Left merges *)

Section MergeLeftFacts.
Variables (L K V : Type).
Variable K_dec : forall x y : K, {x = y} + {x <> y}.
Variable on_left : L -> K.

Lemma matches_In (right : list (V * K)) (l : L) (v : V) :
  In v (matches K_dec on_left right l) <-> In (v, on_left l) right.
Proof.
  unfold matches; rewrite in_map_iff; split.
  - intros ([v' k] & <- & H); apply filter_In in H; simpl in *.
    destruct H as [H Hk]; destruct (K_dec k (on_left l)); [subst; auto | discriminate].
  - intro H; exists (v, on_left l); split; [reflexivity|].
    apply filter_In; split; [assumption|]; simpl.
    destruct (K_dec _ _); [reflexivity | congruence].
Qed.

(** A right frame without repeated join keys matches a left row at most
    once. *)
Lemma matches_at_most_one (right : list (V * K)) (l : L) :
  NoDup (map snd right) -> (List.length (matches K_dec on_left right l) <= 1)%nat.
Proof.
  unfold matches; induction right as [|[v k] r IH]; simpl; intro H; [lia|].
  inversion H as [|? ? Hnot Hr]; subst.
  destruct (K_dec k (on_left l)) as [->|Hne]; [|auto].
  simpl; destruct (filter _ r) as [|[v' k'] f] eqn:Hf; [simpl; lia|].
  exfalso; apply Hnot.
  assert (Hin : In (v', k') (filter (fun r0 => if K_dec (snd r0) (on_left l)
                                               then true else false) r))
    by (rewrite Hf; left; reflexivity).
  apply filter_In in Hin; simpl in Hin; destruct Hin as [Hin Hk].
  destruct (K_dec k' (on_left l)); [subst | discriminate].
  apply in_map_iff; exists (v', on_left l); auto.
Qed.

(** What a merged row tells about the right frame. *)
Lemma merge_left_In (left : list L) (right : list (V * K)) (x : L * option V) :
  In x (merge_left K_dec on_left left right) ->
  In (fst x) left /\
  match snd x with
  | Some v => In (v, on_left (fst x)) right
  | None => forall v, ~ In (v, on_left (fst x)) right
  end.
Proof.
  unfold merge_left; rewrite in_flat_map; intros (l & Hl & Hx).
  unfold merge_row in Hx.
  destruct (matches K_dec on_left right l) as [|v0 vs] eqn:Hm.
  - destruct Hx as [<-|[]]; simpl; split; [assumption|].
    intros v Hv; apply matches_In in Hv; rewrite Hm in Hv; contradiction.
  - apply in_map_iff in Hx; destruct Hx as (v & <- & Hv); simpl.
    split; [assumption|]; apply matches_In; rewrite Hm; assumption.
Qed.

(** Against a right frame that has every join key of the left frame
    exactly once, the merge keeps the left rows as they are, one for
    one, and fills the new column. *)
Lemma merge_left_resolved (left : list L) (right : list (V * K)) :
  NoDup (map snd right) ->
  (forall l, In l left -> In (on_left l) (map snd right)) ->
  Forall2 (fun l x => fst x = l /\ exists v, snd x = Some v /\ In (v, on_left l) right)
          left (merge_left K_dec on_left left right).
Proof.
  intros Hnd; unfold merge_left.
  induction left as [|l r IH]; simpl; intro Hall; [constructor|].
  assert (Hone := matches_at_most_one right l Hnd).
  assert (Hex : In (on_left l) (map snd right)) by auto.
  apply in_map_iff in Hex; destruct Hex as ([v k] & Hk & Hin); simpl in Hk; subst k.
  apply matches_In in Hin.
  unfold merge_row at 1.
  destruct (matches K_dec on_left right l) as [|v0 [|v1 vs]] eqn:Hm;
    [contradiction | | simpl in Hone; lia].
  simpl; constructor; [|apply IH; auto].
  simpl; split; [reflexivity|]; exists v0; split; [reflexivity|].
  apply matches_In; rewrite Hm; left; reflexivity.
Qed.
End MergeLeftFacts.

Lemma Forall2_compose {A B C : Type} (R : A -> B -> Prop) (S : B -> C -> Prop) l1 l2 l3 :
  Forall2 R l1 l2 -> Forall2 S l2 l3 ->
  Forall2 (fun a c => exists b, R a b /\ S b c) l1 l3.
Proof.
  intro H; revert l3; induction H; intros l3 H3; inversion H3; subst; constructor; eauto.
Qed.

Lemma Forall2_impl {A B : Type} (R S : A -> B -> Prop) l l' :
  (forall a b, R a b -> S a b) -> Forall2 R l l' -> Forall2 S l l'.
Proof. intros HRS; induction 1; constructor; auto. Qed.

Lemma key_determines_row {A : Type} (t : table A) (k : Z) (a b : A) :
  NoDup (map fst t) -> In (k, a) t -> In (k, b) t -> a = b.
Proof.
  induction t as [|[k' x] r IH]; simpl; intros Hnd Ha Hb; [contradiction|].
  inversion Hnd as [|? ? Hnot Hr]; subst.
  destruct Ha as [Ha|Ha], Hb as [Hb|Hb].
  - congruence.
  - inversion Ha; subst. exfalso; apply Hnot, in_map_iff; exists (k, b); auto.
  - inversion Hb; subst. exfalso; apply Hnot, in_map_iff; exists (k, a); auto.
  - auto.
Qed.

Lemma count_occ_NoDup {A : Type} (A_dec : forall x y : A, {x = y} + {x <> y})
      (l : list A) (x : A) :
  NoDup l -> count_occ A_dec l x = if in_dec A_dec x l then 1%nat else 0%nat.
Proof.
  intro Hnd; destruct (in_dec A_dec x l) as [Hin|Hout].
  - apply (proj1 (NoDup_count_occ' A_dec l) Hnd), Hin.
  - apply count_occ_not_In, Hout.
Qed.

(** ** The pipeline *)

Section PipelineFacts.
Context {P : Pandas}.

Lemma merge_keys_resolved (d : Dimensions) (df : list Cleaned) :
  covers d df -> Forall2 (resolved d) df (merge_keys d df).
Proof.
  intros ((Nd & Cd) & (Nc & Cc) & (Nk & Ck) & (Np & Cp)).
  unfold merge_keys.
  set (m1 := merge_left string_dec full_date df (date_keys d)).
  set (m2 := merge_left string_dec (fun x => customer_id (fst x)) m1 (dim_customer d)).
  set (m3 := merge_left string_dec (fun x => country (fst (fst x))) m2 (dim_country d)).
  assert (H1 := @merge_left_resolved _ _ _ string_dec full_date df _ Nd Cd).
  fold m1 in H1.
  assert (I1 : forall x, In x m1 -> In (fst x) df)
    by (intros x Hx; apply merge_left_In in Hx; apply Hx).
  assert (H2 := @merge_left_resolved _ _ _ string_dec (fun x => customer_id (fst x))
                  m1 _ Nc (fun x Hx => Cc _ (I1 x Hx))).
  fold m2 in H2.
  assert (I2 : forall x, In x m2 -> In (fst (fst x)) df)
    by (intros x Hx; apply I1, (merge_left_In _ _ _ _ _ Hx)).
  assert (H3 := @merge_left_resolved _ _ _ string_dec (fun x => country (fst (fst x)))
                  m2 _ Nk (fun x Hx => Ck _ (I2 x Hx))).
  fold m3 in H3.
  assert (I3 : forall x, In x m3 -> In (fst (fst (fst x))) df)
    by (intros x Hx; apply I2, (merge_left_In _ _ _ _ _ Hx)).
  assert (H4 := @merge_left_resolved _ _ _ pair_dec
                  (fun x => product_of (fst (fst (fst x)))) m3 _ Np
                  (fun x Hx => Cp _ (I3 x Hx))).
  pose proof (Forall2_compose (Forall2_compose (Forall2_compose H1 H2) H3) H4) as H.
  revert H; apply Forall2_impl.
  intros r x (x3 & (x2 & (x1 & (E1 & k1 & S1 & K1) & (E2 & k2 & S2 & K2))
                    & (E3 & k3 & S3 & K3)) & (E4 & k4 & S4 & K4)).
  unfold resolved, m_row, m_date_key, m_customer_key, m_country_key, m_product_key.
  subst x3 x2 x1; simpl in *.
  subst r; repeat split; eauto.
Qed.

(** *** The dimensions built from the frame *)

Lemma load_dimensions_covers (db : Warehouse) (df : list Cleaned) :
  covers (dims (load_dimensions (create_schema db) df)) df.
Proof.
  unfold covers, date_keys, load_dimensions, create_schema; simpl.
  repeat split.
  - rewrite map_map; simpl.
    exact (proj2 (@insert_or_ignore_well_keyed _ _ d_full_date string_dec _ []
                    (well_keyed_nil _))).
  - intros r Hr; rewrite map_map; simpl.
    apply (@insert_or_ignore_present _ _ d_full_date string_dec _ _ (date_row_of r)).
    apply drop_duplicates_In, in_map, Hr.
  - exact (proj2 (@insert_or_ignore_well_keyed _ _ (fun x : string => x) string_dec _ []
                    (well_keyed_nil _))).
  - intros r Hr.
    apply (@insert_or_ignore_present _ _ (fun x : string => x) string_dec).
    apply drop_duplicates_In, in_map, Hr.
  - exact (proj2 (@insert_or_ignore_well_keyed _ _ (fun x : string => x) string_dec _ []
                    (well_keyed_nil _))).
  - intros r Hr.
    apply (@insert_or_ignore_present _ _ (fun x : string => x) string_dec).
    apply drop_duplicates_In, in_map, Hr.
  - exact (proj2 (@insert_or_ignore_well_keyed _ _ (fun x : string * string => x)
                    pair_dec _ [] (well_keyed_nil _))).
  - intros r Hr.
    apply (@insert_or_ignore_present _ _ (fun x : string * string => x) pair_dec).
    apply drop_duplicates_In, in_map, Hr.
Qed.

(** What a successful run did, stage by stage. *)
Lemma main_Ok (db : Warehouse) (csv : option DataFrame) w out :
  main db csv = Ok (w, out) ->
  exists df c cl,
    csv = Some df /\
    resolve_columns (columns df) = Ok c /\
    clean c (rows df) = Ok cl /\
    w = fst (load_facts (load_dimensions (create_schema db) cl) cl) /\
    out = ([Msg "Loading CSV..."; Msg "Building SQLite DB";
            Msg "Creating schema..."; Msg "Loading dimensions..."]
           ++ snd (load_facts (load_dimensions (create_schema db) cl) cl))%list.
Proof.
  unfold main; destruct csv as [df|]; [|discriminate].
  intro H; apply bind_Ok in H; destruct H as (c & Hc & H).
  apply bind_Ok in H; destruct H as (cl & Hcl & H).
  exists df, c, cl.
  destruct (load_facts _ cl) as [db2 o] eqn:E; simpl.
  inversion H; subst; auto.
Qed.
Lemma load_dimensions_fact_sales (db : Warehouse) (df : list Cleaned) :
  fact_sales (load_dimensions (create_schema db) df) = [].
Proof. reflexivity. Qed.

(** A successful run: the frame was cleaned, every cleaned row found
    its four keys, and the fact table holds the merged rows. *)
Lemma main_facts (db : Warehouse) (csv : option DataFrame) w out :
  main db csv = Ok (w, out) ->
  exists df c cl fact,
    csv = Some df /\
    resolve_columns (columns df) = Ok c /\
    clean c (rows df) = Ok cl /\
    dims w = dims (load_dimensions (create_schema db) cl) /\
    Forall2 (resolved (dims w)) cl fact /\
    map snd (fact_sales w) = map fact_out fact /\
    In (FactRowCount (List.length cl)) out.
Proof.
  intro H; apply main_Ok in H.
  destruct H as (df & c & cl & Hcsv & Hc & Hcl & Hw & Hout).
  set (db1 := load_dimensions (create_schema db) cl) in *.
  exists df, c, cl, (merge_keys (dims db1) cl).
  assert (Hres := merge_keys_resolved (load_dimensions_covers db cl)).
  fold db1 in Hres.
  assert (Hd : dims w = dims db1) by (subst w; reflexivity).
  assert (Hf : map snd (fact_sales w) = map fact_out (merge_keys (dims db1) cl)).
  { subst w; simpl. rewrite append_rows_rows. reflexivity. }
  repeat split; try assumption.
  - rewrite Hd; assumption.
  - subst out; apply in_or_app; right.
    unfold load_facts; cbn [snd fact_sales].
    apply in_or_app; right. apply in_or_app; right. left; f_equal.
    rewrite append_rows_length, length_map.
    unfold db1 at 1; rewrite load_dimensions_fact_sales.
    symmetry; apply (Forall2_length_eq Hres).
Qed.

Lemma fact_row_origin (w : Warehouse) (fact : list Merged) line f :
  map snd (fact_sales w) = map fact_out fact ->
  In (line, f) (fact_sales w) -> exists x, In x fact /\ f = fact_out x.
Proof.
  intros Hf Hin.
  assert (H : In f (map snd (fact_sales w))) by (apply in_map_iff; exists (line, f); auto).
  rewrite Hf in H; apply in_map_iff in H; destruct H as (x & <- & Hx); eauto.
Qed.

(** C1. Referential completeness: after a successful run every row of
    [fact_sales] has its four surrogate keys set, and each of them is the
    key of a row of the corresponding dimension table. *)
Theorem C1_referential_completeness
  (db : Warehouse) (csv : option DataFrame) w out :
  main db csv = Ok (w, out) ->
  forall line f, In (line, f) (fact_sales w) ->
    (exists k, f_date_key f = Some k /\ In k (map fst (dim_date (dims w)))) /\
    (exists k, f_customer_key f = Some k /\ In k (map fst (dim_customer (dims w)))) /\
    (exists k, f_product_key f = Some k /\ In k (map fst (dim_product (dims w)))) /\
    (exists k, f_country_key f = Some k /\ In k (map fst (dim_country (dims w)))).
Proof.
  intros H line f Hin.
  apply main_facts in H.
  destruct H as (df & c & cl & fact & _ & _ & _ & _ & Hres & Hf & _).
  destruct (@fact_row_origin w fact line f Hf Hin) as (x & Hx & ->).
  destruct (@Forall2_in_r _ _ _ _ _ _ Hres Hx)
    as (r & _ & _ & (kd & Sd & Id) & (kc & Sc & Ic) & (kk & Sk & Ik) & (kp & Sp & Ip)).
  simpl; repeat split.
  - exists kd; split; [assumption|].
    unfold date_keys in Id; apply in_map_iff in Id.
    destruct Id as (e & He & Hine); inversion He; subst.
    apply in_map, Hine.
  - exists kc; split; [assumption|]. apply (in_map fst) in Ic; assumption.
  - exists kp; split; [assumption|]. apply (in_map fst) in Ip; assumption.
  - exists kk; split; [assumption|]. apply (in_map fst) in Ik; assumption.
Qed.

(** C8. One fact row per cleaned record: after a successful run the fact
    table holds, in the order of the cleaned frame, one row for each
    cleaned record with that record's invoice, quantity, price, revenue
    and return flag; the line ids are distinct and the reported row count
    is the number of cleaned records. *)
Theorem C8_one_fact_row_per_cleaned_record
  (db : Warehouse) (csv : option DataFrame) w out :
  main db csv = Ok (w, out) ->
  exists df c cl,
    csv = Some df /\
    resolve_columns (columns df) = Ok c /\
    clean c (rows df) = Ok cl /\
    List.length (fact_sales w) = List.length cl /\
    Forall2 (fun r f =>
               f_invoice_no f = invoice_no r /\
               f_invoice_datetime f = invoice_datetime r /\
               f_quantity f = quantity r /\
               f_unit_price f = unit_price r /\
               f_revenue f = revenue r /\
               f_is_return f = is_return r)
            cl (map snd (fact_sales w)) /\
    In (FactRowCount (List.length cl)) out.
Proof.
  intro H; apply main_facts in H.
  destruct H as (df & c & cl & fact & Hcsv & Hc & Hcl & _ & Hres & Hf & Hn).
  exists df, c, cl; repeat split; try assumption.
  - rewrite <- (length_map snd), Hf, length_map.
    symmetry; apply (Forall2_length_eq Hres).
  - rewrite Hf. clear - Hres.
    induction Hres as [|r x cl' fact' Hrx _ IH]; simpl; constructor; [|exact IH].
    destruct Hrx as (<- & _); simpl; repeat split.
Qed.

Lemma load_dimensions_products (db : Warehouse) (df : list Cleaned) :
  let t := dim_product (dims (load_dimensions (create_schema db) df)) in
  NoDup (map fst t) /\ NoDup (map snd t) /\
  forall sd, In sd (map snd t) <-> In sd (map product_of df).
Proof.
  unfold load_dimensions, create_schema; simpl.
  pose proof (@insert_or_ignore_well_keyed _ _ (fun x : string * string => x) pair_dec
                (drop_duplicates pair_dec (map product_of df)) []
                (well_keyed_nil _)) as [Hk Hu].
  repeat split; try assumption.
  - intro Hin; apply in_map_iff in Hin; destruct Hin as (e & <- & He).
    apply insert_or_ignore_origin in He; destruct He as [[]|He].
    apply drop_duplicates_In in He; assumption.
  - intro Hin.
    apply (@insert_or_ignore_present _ _ (fun x : string * string => x) pair_dec).
    apply drop_duplicates_In, Hin.
Qed.

(** C5. The product dimension: a (stock code, description) pair has
    exactly one row in [dim_product] when it occurs in the cleaned frame
    and none otherwise; two cleaned records with the same stock code and
    different descriptions have two rows, under different keys. *)
Theorem C5_product_dimension
  (db : Warehouse) (csv : option DataFrame) w out :
  main db csv = Ok (w, out) ->
  exists df c cl,
    csv = Some df /\
    resolve_columns (columns df) = Ok c /\
    clean c (rows df) = Ok cl /\
    (forall sd : string * string,
        count_occ pair_dec (map snd (dim_product (dims w))) sd =
        if in_dec pair_dec sd (map product_of cl) then 1%nat else 0%nat) /\
    (forall r1 r2,
        In r1 cl -> In r2 cl ->
        stock_code r1 = stock_code r2 -> description r1 <> description r2 ->
        exists k1 k2,
          k1 <> k2 /\
          In (k1, (stock_code r1, description r1)) (dim_product (dims w)) /\
          In (k2, (stock_code r2, description r2)) (dim_product (dims w))).
Proof.
  intro H; apply main_facts in H.
  destruct H as (df & c & cl & fact & Hcsv & Hc & Hcl & Hd & _ & _ & _).
  exists df, c, cl; repeat split; try assumption; rewrite Hd.
  - intro sd.
    destruct (load_dimensions_products db cl) as (_ & Hu & Hiff).
    rewrite (count_occ_NoDup pair_dec _ Hu).
    destruct (in_dec pair_dec sd _) as [Hi|Hi], (in_dec pair_dec sd _) as [Hj|Hj];
      try reflexivity; exfalso.
    + apply Hj, Hiff, Hi.
    + apply Hi, Hiff, Hj.
  - intros r1 r2 H1 H2 _ Hne.
    destruct (load_dimensions_products db cl) as (Hk & _ & Hiff).
    assert (P1 : In (product_of r1) (map snd (dim_product
                    (dims (load_dimensions (create_schema db) cl)))))
      by (apply Hiff, in_map, H1).
    assert (P2 : In (product_of r2) (map snd (dim_product
                    (dims (load_dimensions (create_schema db) cl)))))
      by (apply Hiff, in_map, H2).
    apply in_map_iff in P1; destruct P1 as ([k1 p1] & E1 & I1).
    apply in_map_iff in P2; destruct P2 as ([k2 p2] & E2 & I2).
    simpl in E1, E2; subst p1 p2.
    exists k1, k2; repeat split; try assumption.
    intros ->.
    pose proof (key_determines_row _ _ _ _ Hk I1 I2) as E.
    unfold product_of in E; congruence.
Qed.

(** *** The resolver on arbitrary dimension tables *)

Lemma count_na_pos {A B : Type} (f : A -> option B) (l : list A) :
  (0 <? count_na f l)%nat = true <-> exists x, In x l /\ f x = None.
Proof.
  unfold count_na; rewrite Nat.ltb_lt; split.
  - destruct (filter _ l) as [|x r] eqn:E; simpl; [lia|]; intros _.
    assert (Hx : In x (filter (fun a => match f a with None => true | Some _ => false end) l))
      by (rewrite E; left; reflexivity).
    apply filter_In in Hx; destruct Hx as [Hx Hn]; exists x; split; [assumption|].
    destruct (f x); [discriminate | reflexivity].
  - intros (x & Hx & Hn).
    assert (Hin : In x (filter (fun a => match f a with None => true | Some _ => false end) l))
      by (apply filter_In; rewrite Hn; auto).
    destruct (filter _ l); [contradiction | simpl; lia].
Qed.

Lemma warn_missing_spec (fact : list Merged) :
  ((exists x, In x fact /\ unresolved x) ->
   warn_missing fact =
     [MissingKeys (count_na m_date_key fact) (count_na m_customer_key fact)
                  (count_na m_country_key fact) (count_na m_product_key fact)]) /\
  ((forall x, In x fact -> ~ unresolved x) -> warn_missing fact = []).
Proof.
  unfold warn_missing, missing.
  pose proof (count_na_pos m_date_key fact) as Hd.
  pose proof (count_na_pos m_customer_key fact) as Hc.
  pose proof (count_na_pos m_country_key fact) as Hk.
  pose proof (count_na_pos m_product_key fact) as Hp.
  split.
  - intros (x & Hx & Hu).
    assert (E : (0 <? count_na m_date_key fact)%nat
                || (0 <? count_na m_customer_key fact)%nat
                || (0 <? count_na m_country_key fact)%nat
                || (0 <? count_na m_product_key fact)%nat = true).
    { rewrite !orb_true_iff.
      destruct Hu as [Hu|[Hu|[Hu|Hu]]];
        [left; left; left; apply Hd | left; left; right; apply Hc
         | left; right; apply Hk | right; apply Hp]; eauto. }
    rewrite E; reflexivity.
  - intro Hall.
    assert (E : (0 <? count_na m_date_key fact)%nat
                || (0 <? count_na m_customer_key fact)%nat
                || (0 <? count_na m_country_key fact)%nat
                || (0 <? count_na m_product_key fact)%nat = false).
    { rewrite !orb_false_iff; repeat split; apply not_true_is_false; intro H.
      - apply Hd in H; destruct H as (x & Hx & Hn); apply (Hall x Hx); left; exact Hn.
      - apply Hc in H; destruct H as (x & Hx & Hn); apply (Hall x Hx); right; left; exact Hn.
      - apply Hk in H; destruct H as (x & Hx & Hn); apply (Hall x Hx);
          right; right; left; exact Hn.
      - apply Hp in H; destruct H as (x & Hx & Hn); apply (Hall x Hx);
          right; right; right; exact Hn. }
    rewrite E; reflexivity.
Qed.

(** A key column is null exactly where the dimension has no row for the
    record's natural key. *)
Lemma merge_keys_null (d : Dimensions) (df : list Cleaned) (x : Merged) :
  In x (merge_keys d df) ->
  In (m_row x) df /\
  (m_date_key x = None <-> forall k, ~ In (k, full_date (m_row x)) (date_keys d)) /\
  (m_customer_key x = None <-> forall k, ~ In (k, customer_id (m_row x)) (dim_customer d)) /\
  (m_country_key x = None <-> forall k, ~ In (k, country (m_row x)) (dim_country d)) /\
  (m_product_key x = None <-> forall k, ~ In (k, product_of (m_row x)) (dim_product d)).
Proof.
  unfold merge_keys, m_row, m_date_key, m_customer_key, m_country_key, m_product_key.
  destruct x as [[[[r kd] kc] kk] kp]; simpl.
  intro H4. apply merge_left_In in H4; simpl in H4; destruct H4 as [H3 P4].
  apply merge_left_In in H3; simpl in H3; destruct H3 as [H2 P3].
  apply merge_left_In in H2; simpl in H2; destruct H2 as [H1 P2].
  apply merge_left_In in H1; simpl in H1; destruct H1 as [H0 P1].
  split; [assumption|].
  destruct kd, kc, kk, kp; repeat split;
    solve [ discriminate | intros _; assumption | reflexivity
          | intro Habs; exfalso; eapply Habs; eassumption ].
Qed.

(** C6. Unresolved keys: whatever the dimension tables hold, the load of
    the fact table completes and stores every merged row, null keys
    included; a key is null exactly when its dimension has no row for the
    record; when some row has a null key the output carries one warning
    with the number of null keys of each of the four columns, and when no
    row has one the output carries no warning. *)
Theorem C6_unresolved_keys_warning (db : Warehouse) (df : list Cleaned) :
  let fact := merge_keys (dims db) df in
  let db' := fst (load_facts db df) in
  let out := snd (load_facts db df) in
  map snd (fact_sales db') = (map snd (fact_sales db) ++ map fact_out fact)%list /\
  (forall x, In x fact ->
     (m_date_key x = None <->
      forall k, ~ In (k, full_date (m_row x)) (date_keys (dims db))) /\
     (m_customer_key x = None <->
      forall k, ~ In (k, customer_id (m_row x)) (dim_customer (dims db))) /\
     (m_country_key x = None <->
      forall k, ~ In (k, country (m_row x)) (dim_country (dims db))) /\
     (m_product_key x = None <->
      forall k, ~ In (k, product_of (m_row x)) (dim_product (dims db)))) /\
  ((exists x, In x fact /\ unresolved x) ->
   In (MissingKeys (count_na m_date_key fact) (count_na m_customer_key fact)
                   (count_na m_country_key fact) (count_na m_product_key fact)) out /\
   (0 < count_na m_date_key fact + count_na m_customer_key fact
        + count_na m_country_key fact + count_na m_product_key fact)%nat) /\
  ((forall x, In x fact -> ~ unresolved x) ->
   forall a b c d, ~ In (MissingKeys a b c d) out).
Proof.
  intros fact db' out.
  destruct (warn_missing_spec fact) as [Hwarn Hquiet].
  split; [|split; [|split]].
  - subst db'; unfold load_facts; cbn [fst fact_sales].
    apply append_rows_rows.
  - intros x Hx; apply (merge_keys_null _ _ _ Hx).
  - intro H; split.
    + subst out; unfold load_facts; cbn [snd].
      fold fact; rewrite (Hwarn H); simpl; auto.
    + destruct H as (x & Hx & Hu).
      pose proof (count_na_pos m_date_key fact) as Hd.
      pose proof (count_na_pos m_customer_key fact) as Hc.
      pose proof (count_na_pos m_country_key fact) as Hk.
      pose proof (count_na_pos m_product_key fact) as Hp.
      rewrite Nat.ltb_lt in Hd, Hc, Hk, Hp.
      destruct Hu as [Hu|[Hu|[Hu|Hu]]].
      * assert (0 < count_na m_date_key fact)%nat by (apply Hd; eauto); lia.
      * assert (0 < count_na m_customer_key fact)%nat by (apply Hc; eauto); lia.
      * assert (0 < count_na m_country_key fact)%nat by (apply Hk; eauto); lia.
      * assert (0 < count_na m_product_key fact)%nat by (apply Hp; eauto); lia.
  - intros H a b c d Hin; subst out; unfold load_facts in Hin; cbn [snd] in Hin.
    fold fact in Hin; rewrite (Hquiet H) in Hin.
    simpl in Hin.
    repeat (destruct Hin as [Hin|Hin]; [discriminate|]); contradiction.
Qed.

(** *** Cleaning *)

(** The rows of the frame after the three filters. *)
Lemma filter_rows_In (c : Columns) (rs : list Row) (p : Parsed) :
  In p (filter_rows c rs) <->
  In (p_row p) rs /\
  to_datetime (p_row p (InvoiceDateCol c)) = Some (p_InvoiceDate p) /\
  p_Quantity p = to_numeric (p_row p (QuantityCol c)) /\
  p_Price p = to_numeric (p_row p (PriceCol c)) /\
  F64.notna (p_Quantity p) = true /\
  F64.notna (p_Price p) = true /\
  F64.eqb (p_Quantity p) F64.zero = false /\
  F64.ltb F64.zero (p_Price p) = true.
Proof.
  unfold filter_rows, parse_numbers, parse_dates, valid.
  rewrite !filter_In, in_map_iff, !andb_true_iff, negb_true_iff.
  split.
  - intros (((rt & <- & Hrt) & Hq & Hp) & Hz & Hpos); simpl in *.
    apply in_flat_map in Hrt; destruct Hrt as (r & Hr & Hin).
    destruct (to_datetime (r (InvoiceDateCol c))) as [t|] eqn:Ht; [|contradiction].
    destruct Hin as [<-|[]]; simpl; repeat split; assumption.
  - intros (Hr & Ht & Eq & Ep & Hq & Hp & Hz & Hpos).
    repeat split; try assumption.
    exists (p_row p, p_InvoiceDate p); split.
    + destruct p as [r t q pr]; simpl in *; subst; reflexivity.
    + apply in_flat_map; exists (p_row p); split; [assumption|].
      rewrite Ht; left; reflexivity.
Qed.

Lemma derive_Ok (c : Columns) (p : Parsed) (id : string) (x : Cleaned) :
  derive c (p, id) = Ok x ->
  astype_int (p_Quantity p) = Ok (quantity x) /\
  c_src x = p /\
  customer_id x = id /\
  full_date x = strftime_date (p_InvoiceDate p) /\
  year x = ts_year (p_InvoiceDate p) /\
  month x = ts_month (p_InvoiceDate p) /\
  quarter x = (ts_month (p_InvoiceDate p) - 1) / 3 + 1 /\
  unit_price x = p_Price p /\
  revenue x = F64.mul (F64.of_Z (quantity x)) (p_Price p) /\
  is_return x = (if quantity x <? 0 then 1 else 0).
Proof.
  unfold derive; simpl.
  destruct (astype_int (p_Quantity p)) as [q|e]; simpl; [|discriminate].
  intro H; inversion H; subst; simpl; repeat split.
Qed.

(** A cleaning that succeeds keeps the filtered rows, one for one and in
    order. *)
Lemma clean_Ok (c : Columns) (rs : list Row) (cl : list Cleaned) :
  clean c rs = Ok cl ->
  Forall2 (fun p x =>
             exists id,
               normalize_customer_id (p_row p (CustomerIdCol c)) = Ok id /\
               derive c (p, id) = Ok x)
          (filter_rows c rs) cl.
Proof.
  unfold clean; intro H.
  apply bind_Ok in H; destruct H as (ids & Hids & Hcl).
  apply traverse_Ok in Hids; apply traverse_Ok in Hcl.
  pose proof (Forall2_compose Hids Hcl) as H.
  revert H; apply Forall2_impl.
  intros p x ([p' id] & Hid & Hx).
  unfold add_customer_id in Hid.
  apply bind_Ok in Hid; destruct Hid as (id' & Hn & E).
  inversion E; subst; eauto.
Qed.

(** The integer quantity of a whole, non-zero parsed quantity is not
    zero. *)
Lemma astype_int_nonzero (x : F64.t) (q : Z) :
  F64.eqb x F64.zero = false ->
  F64.is_integral x = true ->
  astype_int x = Ok q -> q <> 0.
Proof.
  intros Hnz Hint; unfold astype_int.
  destruct x as [s|s| |s m e]; cbn [F64.isfinite F64.trunc F64.is_integral] in *;
    try discriminate.
  set (a := if 0 <=? e then Z.pos m * 2 ^ e else Z.pos m / 2 ^ (- e)).
  assert (Ha : 0 < a).
  { unfold a; destruct (0 <=? e) eqn:He.
    - apply Z.leb_le in He.
      assert (0 < 2 ^ e) by (apply Z.pow_pos_nonneg; lia). nia.
    - apply Z.leb_gt in He. apply Z.eqb_eq in Hint.
      assert (Hpow : 0 < 2 ^ (- e)) by (apply Z.pow_pos_nonneg; lia).
      pose proof (Z.div_mod (Z.pos m) (2 ^ (- e))) as D.
      assert (Z.pos m = 2 ^ (- e) * (Z.pos m / 2 ^ (- e))) by lia.
      assert (0 < Z.pos m) by lia. nia. }
  destruct (F64.in_int64 (if s then - a else a)); intro H; inversion H; subst.
  - destruct s; lia.
  - unfold F64.int64_min; lia.
Qed.

(** The integer quantity is zero exactly when the parsed quantity rounds
    to zero. *)
Lemma astype_int_zero (x : F64.t) (q : Z) :
  astype_int x = Ok q -> (q = 0 <-> F64.trunc x = 0).
Proof.
  unfold astype_int; destruct (F64.isfinite x); [|discriminate].
  destruct (F64.in_int64 (F64.trunc x)) eqn:E; intro H; inversion H; subst.
  - reflexivity.
  - split; intro H0.
    + vm_compute in H0; discriminate.
    + rewrite H0 in E; vm_compute in E; discriminate.
Qed.

(** X13. What the three filters guarantee.  Every row that is left after
    them has a parsed invoice date, a parsed quantity that is not zero and a
    parsed price above zero, and these conditions decide which rows are
    left (so a negative quantity is kept, a zero quantity or a price that
    is not positive is dropped).  Every cleaned record comes from such a
    row and keeps its price; its integer quantity is the parsed quantity
    rounded toward zero, so it is zero exactly when the parsed quantity
    rounds to zero, and never when the parsed quantity is a whole
    number. *)
Theorem cleaned_record_invariants (c : Columns) (rs : list Row) :
  (forall r,
      In r (map p_row (filter_rows c rs)) <->
      In r rs /\
      (exists t, to_datetime (r (InvoiceDateCol c)) = Some t) /\
      F64.notna (to_numeric (r (QuantityCol c))) = true /\
      F64.notna (to_numeric (r (PriceCol c))) = true /\
      F64.eqb (to_numeric (r (QuantityCol c))) F64.zero = false /\
      F64.ltb F64.zero (to_numeric (r (PriceCol c))) = true) /\
  (forall q : F64.t, F64.ltb q F64.zero = true -> F64.eqb q F64.zero = false) /\
  (forall cl, clean c rs = Ok cl ->
     forall x, In x cl ->
       In (c_src x) (filter_rows c rs) /\
       to_datetime (p_row (c_src x) (InvoiceDateCol c)) = Some (p_InvoiceDate (c_src x)) /\
       full_date x = strftime_date (p_InvoiceDate (c_src x)) /\
       F64.eqb (p_Quantity (c_src x)) F64.zero = false /\
       unit_price x = p_Price (c_src x) /\
       F64.ltb F64.zero (unit_price x) = true /\
       (quantity x = 0 <-> F64.trunc (p_Quantity (c_src x)) = 0) /\
       (F64.is_integral (p_Quantity (c_src x)) = true -> quantity x <> 0)).
Proof.
  split; [|split].
  - intro r; rewrite in_map_iff; split.
    + intros (p & <- & Hp); apply filter_rows_In in Hp.
      destruct Hp as (Hr & Ht & Eq & Ep & Hq & Hpr & Hz & Hpos).
      rewrite <- Eq, <- Ep; repeat split; eauto.
    + intros (Hr & (t & Ht) & Hq & Hp & Hz & Hpos).
      exists (mkParsed r t (to_numeric (r (QuantityCol c))) (to_numeric (r (PriceCol c)))).
      split; [reflexivity|]; apply filter_rows_In; simpl; repeat split; assumption.
  - intros q H; unfold F64.ltb, F64.eqb, SFltb, SFeqb in *.
    destruct (SFcompare q F64.zero) as [[]|]; try discriminate; reflexivity.
  - intros cl Hcl x Hx.
    apply clean_Ok in Hcl.
    destruct (@Forall2_in_r _ _ _ _ _ _ Hcl Hx) as (p & Hp & id & _ & Hd).
    apply derive_Ok in Hd.
    destruct Hd as (Hq & Hsrc & _ & Hfd & _ & _ & _ & Hup & _ & _).
    rewrite Hsrc, Hup.
    pose proof (proj1 (filter_rows_In c rs p) Hp)
      as (_ & Ht & _ & _ & _ & _ & Hz & Hpos).
    split; [assumption|]. split; [assumption|]. split; [assumption|].
    split; [assumption|]. split; [reflexivity|]. split; [assumption|].
    split.
    + eapply astype_int_zero; eassumption.
    + intro Hint; eapply astype_int_nonzero; eassumption.
Qed.

(** *** Customer ids *)

Lemma normalize_missing (v : cell) :
  F64.notna (to_numeric v) = false -> normalize_customer_id v = Ok "GUEST".
Proof.
  intro H; unfold normalize_customer_id, astype_Int64; rewrite H; reflexivity.
Qed.

Lemma normalize_integral (v : cell) :
  F64.is_integral (to_numeric v) = true ->
  F64.in_int64 (F64.trunc (to_numeric v)) = true ->
  normalize_customer_id v = Ok (PyStr.str_of_Z (F64.trunc (to_numeric v))).
Proof.
  intros Hi Hr; unfold normalize_customer_id, astype_Int64.
  assert (Hn : F64.notna (to_numeric v) = true)
    by (destruct (to_numeric v); [reflexivity | discriminate | discriminate | reflexivity]).
  assert (Hf : F64.isfinite (to_numeric v) = true)
    by (destruct (to_numeric v); [reflexivity | discriminate | discriminate | reflexivity]).
  rewrite Hn, Hf, Hi, Hr; cbn [andb bind Int64_str].
  rewrite strip_str_of_Z, str_of_Z_not_missing; reflexivity.
Qed.

Lemma normalize_fractional (v : cell) :
  F64.notna (to_numeric v) = true ->
  F64.is_integral (to_numeric v) = false ->
  normalize_customer_id v = Raise UnsafeInt64Cast.
Proof.
  intros Hn Hi; unfold normalize_customer_id, astype_Int64.
  rewrite Hn, Hi, andb_false_r; reflexivity.
Qed.

(** The only exception of the customer id column. *)
Lemma add_customer_id_raises (c : Columns) (p : Parsed) (e : error) :
  add_customer_id c p = Raise e -> e = UnsafeInt64Cast.
Proof.
  unfold add_customer_id, normalize_customer_id, astype_Int64.
  destruct (F64.notna _); simpl; [|discriminate].
  destruct (_ && _); simpl; [discriminate|].
  intro H; inversion H; reflexivity.
Qed.

(** X14. Customer ids that the nullable integer type admits.  A value
    that does not parse as a number (or is absent) becomes "GUEST"; a value
    that parses as a whole number within 64 bits becomes the decimal
    notation of that integer, so that 12345.0 becomes "12345"; when every
    filtered row has such a value the customer id column is computed for
    each of them, in order, and no row is dropped; and whenever cleaning
    succeeds the cleaned records are the filtered rows, each with its
    normalised id. *)
Theorem customer_id_normalization (c : Columns) (rs : list Row) :
  (forall v, F64.notna (to_numeric v) = false -> normalize_customer_id v = Ok "GUEST") /\
  (forall v,
      F64.is_integral (to_numeric v) = true ->
      F64.in_int64 (F64.trunc (to_numeric v)) = true ->
      normalize_customer_id v = Ok (PyStr.str_of_Z (F64.trunc (to_numeric v)))) /\
  (forall v, to_numeric v = F64.decimal 123450 1 -> normalize_customer_id v = Ok "12345") /\
  ((forall p, In p (filter_rows c rs) ->
      let x := to_numeric (p_row p (CustomerIdCol c)) in
      F64.notna x = false \/
      (F64.is_integral x = true /\ F64.in_int64 (F64.trunc x) = true)) ->
   exists ids,
     traverse (add_customer_id c) (filter_rows c rs) = Ok ids /\
     map fst ids = filter_rows c rs) /\
  (forall cl, clean c rs = Ok cl ->
     map c_src cl = filter_rows c rs /\
     forall x, In x cl ->
       normalize_customer_id (p_row (c_src x) (CustomerIdCol c)) = Ok (customer_id x)).
Proof.
  split; [exact normalize_missing|].
  split; [exact normalize_integral|].
  split; [|split].
  - intros v E; rewrite normalize_integral; rewrite E; reflexivity.
  - intro Hall.
    destruct (@traverse_total _ _ (add_customer_id c) (filter_rows c rs))
      as (ids & Hids).
    { intros p Hp; unfold add_customer_id.
      destruct (Hall p Hp) as [Hn|[Hi Hr]].
      - rewrite (normalize_missing _ Hn); simpl; eauto.
      - rewrite (normalize_integral _ Hi Hr); simpl; eauto. }
    exists ids; split; [assumption|].
    apply traverse_Ok in Hids; symmetry.
    rewrite <- (map_id (filter_rows c rs)) at 1.
    apply Forall2_map_eq; revert Hids; apply Forall2_impl.
    intros p pi Hpi; unfold add_customer_id in Hpi.
    apply bind_Ok in Hpi; destruct Hpi as (id & _ & E).
    inversion E; reflexivity.
  - intros cl Hcl; apply clean_Ok in Hcl; split.
    + symmetry; rewrite <- (map_id (filter_rows c rs)).
      apply Forall2_map_eq; revert Hcl; apply Forall2_impl.
      intros p x (id & _ & Hd); apply derive_Ok in Hd.
      symmetry; apply Hd.
    + intros x Hx.
      destruct (@Forall2_in_r _ _ _ _ _ _ Hcl Hx) as (p & _ & id & Hn & Hd).
      apply derive_Ok in Hd; destruct Hd as (_ & -> & -> & _); exact Hn.
Qed.

(** When a row that passed the filters has a customer id that parses as
    a number with a fractional part, the conversion to the nullable
    integer type raises and [main] ends with that exception; hence a run
    that completes had whole-number ids on every filtered row whose id
    parses. *)
Lemma fractional_customer_id_aborts
  (db : Warehouse) (cols : list string) (rs : list Row) (c : Columns) :
  resolve_columns cols = Ok c ->
  ((exists p, In p (filter_rows c rs) /\
              F64.notna (to_numeric (p_row p (CustomerIdCol c))) = true /\
              F64.is_integral (to_numeric (p_row p (CustomerIdCol c))) = false) ->
   main db (Some (mkDataFrame cols rs)) = Raise UnsafeInt64Cast) /\
  (forall w out,
      main db (Some (mkDataFrame cols rs)) = Ok (w, out) ->
      forall p, In p (filter_rows c rs) ->
        F64.notna (to_numeric (p_row p (CustomerIdCol c))) = true ->
        F64.is_integral (to_numeric (p_row p (CustomerIdCol c))) = true).
Proof.
  intro Hc.
  assert (Habort :
    (exists p, In p (filter_rows c rs) /\
               F64.notna (to_numeric (p_row p (CustomerIdCol c))) = true /\
               F64.is_integral (to_numeric (p_row p (CustomerIdCol c))) = false) ->
    main db (Some (mkDataFrame cols rs)) = Raise UnsafeInt64Cast).
  { intros (p & Hp & Hn & Hi).
    unfold main; cbn [columns rows]; rewrite Hc; cbn [bind].
    unfold clean.
    rewrite (@traverse_Raise _ _ (add_customer_id c) UnsafeInt64Cast);
      [reflexivity | apply add_customer_id_raises |].
    exists p; split; [assumption|].
    unfold add_customer_id; rewrite (normalize_fractional _ Hn Hi); reflexivity. }
  split; [exact Habort|].
  intros w out Hok p Hp Hn.
  destruct (F64.is_integral (to_numeric (p_row p (CustomerIdCol c)))) eqn:Hi;
    [reflexivity|].
  rewrite Habort in Hok; [discriminate | eauto].
Qed.

(** *** What the run reports *)

(** In [main] every lookup succeeds, so the warning is never printed. *)
Lemma main_never_warns (db : Warehouse) (df : list Cleaned) :
  warn_missing (merge_keys (dims (load_dimensions (create_schema db) df)) df) = [].
Proof.
  apply warn_missing_spec; intros x Hx.
  pose proof (merge_keys_resolved (load_dimensions_covers db df)) as Hres.
  destruct (@Forall2_in_r _ _ _ _ _ _ Hres Hx)
    as (r & _ & _ & (kd & Sd & _) & (kc & Sc & _) & (kk & Sk & _) & (kp & Sp & _)).
  unfold unresolved; rewrite Sd, Sc, Sk, Sp.
  intros [H|[H|[H|H]]]; discriminate.
Qed.

(** C3. The run reports no count of dropped records: a run that
    completes prints exactly the progress messages, the number of fact
    rows (the number of rows that passed the filters), the counts of the
    fact rows by return flag, and the exported tables; no warning and no
    other count is printed. *)
Theorem C3_only_kept_rows_are_reported
  (db : Warehouse) (cols : list string) (rs : list Row) (c : Columns)
  (w : Warehouse) (out : list event) :
  resolve_columns cols = Ok c ->
  main db (Some (mkDataFrame cols rs)) = Ok (w, out) ->
  out = ([Msg "Loading CSV..."; Msg "Building SQLite DB";
          Msg "Creating schema..."; Msg "Loading dimensions...";
          Msg "Loading fact table...";
          FactRowCount (List.length (filter_rows c rs));
          ReturnCounts (return_counts (fact_sales w));
          Msg "Exporting tables for Power BI..."]
         ++ exports ++ [Msg "DONE"])%list.
Proof.
  intros Hc H.
  pose proof (main_facts _ _ H) as (df & c' & cl & fact & Hcsv & Hc' & Hcl & _).
  inversion Hcsv; subst df; cbn [columns rows] in *.
  rewrite Hc in Hc'; inversion Hc'; subst c'.
  apply main_Ok in H.
  destruct H as (df & c' & cl' & Hcsv' & Hc'' & Hcl' & Hw & Hout).
  inversion Hcsv'; subst df; cbn [columns rows] in *.
  rewrite Hc in Hc''; inversion Hc''; subst c'.
  rewrite Hcl in Hcl'; inversion Hcl'; subst cl'.
  subst out.
  unfold load_facts; cbn [snd fst].
  rewrite main_never_warns.
  rewrite Hw; unfold load_facts; cbn [fst fact_sales app].
  do 5 f_equal.
  rewrite append_rows_length, length_map, load_dimensions_fact_sales.
  pose proof (merge_keys_resolved (load_dimensions_covers db cl)) as Hres.
  rewrite <- (Forall2_length_eq Hres).
  apply clean_Ok in Hcl; rewrite (Forall2_length_eq Hcl); reflexivity.
Qed.

(** *** The scenario of the specification *)

(** C9. The invoice line 536365 of the scenario: when the library reads
    its date as 2010-12-01 08:26, its quantity as 6, its price as 3.39
    and its customer id as 17850, cleaning yields one record with
    full_date "2010-12-01", year 2010, month 12, quarter 4, revenue 20.34
    (the binary64 number nearest to it), is_return 0 and customer_id
    "17850". *)
Theorem C9_lantern_scenario (c : Columns) (r : Row) :
  to_datetime (r (InvoiceDateCol c)) = Some (mkTimestamp 2010 12 1 8 26 0) ->
  to_numeric (r (QuantityCol c)) = F64.of_Z 6 ->
  to_numeric (r (PriceCol c)) = F64.decimal 339 2 ->
  to_numeric (r (CustomerIdCol c)) = F64.of_Z 17850 ->
  exists x,
    clean c [r] = Ok [x] /\
    full_date x = "2010-12-01" /\
    year x = 2010 /\
    month x = 12 /\
    quarter x = 4 /\
    revenue x = F64.decimal 2034 2 /\
    is_return x = 0 /\
    customer_id x = "17850".
Proof.
  intros Ht Hq Hp Hc.
  assert (Ef : filter_rows c [r] =
               [mkParsed r (mkTimestamp 2010 12 1 8 26 0)
                         (F64.of_Z 6) (F64.decimal 339 2)]).
  { unfold filter_rows, parse_numbers, parse_dates.
    cbn [flat_map map app]; rewrite Ht; cbn [flat_map map app fst snd].
    rewrite Hq, Hp; reflexivity. }
  assert (Ei : normalize_customer_id (r (CustomerIdCol c)) = Ok "17850").
  { rewrite normalize_integral; rewrite Hc; reflexivity. }
  unfold clean; rewrite Ef.
  cbn [traverse]; unfold add_customer_id; cbn [p_row]; rewrite Ei.
  cbn [bind traverse].
  eexists; split; [reflexivity|].
  repeat split; vm_compute; reflexivity.
Qed.

(** *** Required columns *)

Lemma find_column_Some (t : string) (cols : list string) (c : string) :
  find_column t cols = Some c -> In c cols /\ norm_name c = t.
Proof.
  induction cols as [|x r IH]; simpl; [discriminate|].
  destruct (String.eqb_spec (norm_name x) t) as [E|_].
  - intro H; inversion H; subst; auto.
  - intro H; destruct (IH H); auto.
Qed.

Lemma find_column_None (t : string) (cols : list string) :
  find_column t cols = None -> forall c, In c cols -> norm_name c <> t.
Proof.
  induction cols as [|x r IH]; simpl; [contradiction|].
  destruct (String.eqb_spec (norm_name x) t) as [|Hne]; [discriminate|].
  intros H c [<-|Hc]; [assumption | apply IH; assumption].
Qed.

(** [col] returns a matching column, or raises with the name asked for
    and the columns of the frame. *)
Lemma col_cases (cols : list string) (name : string) :
  (exists c, col cols name = Ok c /\ In c cols /\ norm_name c = norm_name name) \/
  (col cols name = Raise (MissingColumn name cols) /\ ~ has_column cols name).
Proof.
  unfold col; destruct (find_column (norm_name name) cols) as [c|] eqn:E.
  - left; exists c; split; [reflexivity | apply find_column_Some, E].
  - right; split; [reflexivity|].
    intros (c & Hc & Hn); eapply find_column_None; eassumption.
Qed.

Lemma resolve_columns_cases (cols : list string) :
  (exists c, resolve_columns cols = Ok c /\
             forall name, In name required_columns -> has_column cols name) \/
  (exists name, resolve_columns cols = Raise (MissingColumn name cols) /\
                In name required_columns /\ ~ has_column cols name).
Proof.
  unfold resolve_columns, required_columns.
  destruct (col_cases cols "Invoice") as [(c1 & -> & H1)|[-> N]];
    [|right; eexists; simpl; split; [reflexivity | split; [tauto | exact N]]].
  destruct (col_cases cols "StockCode") as [(c2 & -> & H2)|[-> N]];
    [|right; eexists; simpl; split; [reflexivity | split; [tauto | exact N]]].
  destruct (col_cases cols "Description") as [(c3 & -> & H3)|[-> N]];
    [|right; eexists; simpl; split; [reflexivity | split; [tauto | exact N]]].
  destruct (col_cases cols "Quantity") as [(c4 & -> & H4)|[-> N]];
    [|right; eexists; simpl; split; [reflexivity | split; [tauto | exact N]]].
  destruct (col_cases cols "InvoiceDate") as [(c5 & -> & H5)|[-> N]];
    [|right; eexists; simpl; split; [reflexivity | split; [tauto | exact N]]].
  destruct (col_cases cols "Price") as [(c6 & -> & H6)|[-> N]];
    [|right; eexists; simpl; split; [reflexivity | split; [tauto | exact N]]].
  destruct (col_cases cols "Customer ID") as [(c7 & -> & H7)|[-> N]];
    [|right; eexists; simpl; split; [reflexivity | split; [tauto | exact N]]].
  destruct (col_cases cols "Country") as [(c8 & -> & H8)|[-> N]];
    [|right; eexists; simpl; split; [reflexivity | split; [tauto | exact N]]].
  left; eexists; split; [reflexivity|].
  intros name Hin; simpl in Hin.
  destruct Hin as [<-|[<-|[<-|[<-|[<-|[<-|[<-|[<-|[]]]]]]]]];
    eexists; eassumption.
Qed.

(** X15. What [col] does.  Column names are matched up to case and to
    whitespace at both ends: [col] finds a column exactly when one matches
    in that sense, and returns such a column.  When a required name has no
    matching column, [main] raises the missing-column error, which names
    a required column that is absent and lists the columns of the frame,
    whatever the rows are; when all eight are present the eight lookups
    succeed. *)
Theorem missing_column_error (db : Warehouse) (cols : list string) :
  (forall name,
      has_column cols name <->
      exists c, col cols name = Ok c /\ In c cols /\
                PyStr.lower (PyStr.strip c) = PyStr.lower (PyStr.strip name)) /\
  ((exists name, In name required_columns /\ ~ has_column cols name) ->
   exists name,
     In name required_columns /\ ~ has_column cols name /\
     forall rs, main db (Some (mkDataFrame cols rs)) = Raise (MissingColumn name cols)) /\
  ((forall name, In name required_columns -> has_column cols name) ->
   exists c, resolve_columns cols = Ok c).
Proof.
  split; [|split].
  - intro name; split.
    + intro Hhas; destruct (col_cases cols name) as [(c & Hc & Hin & Hn)|[_ N]];
        [eauto | contradiction].
    + intros (c & _ & Hin & Hn); exists c; auto.
  - intros (name & Hreq & Habs).
    destruct (resolve_columns_cases cols) as [(c & _ & Hall)|(n & Hr & Hn & Ha)].
    + destruct (Habs (Hall name Hreq)).
    + exists n; repeat split; try assumption.
      intro rs; unfold main; cbn [columns]; rewrite Hr; reflexivity.
  - intro Hall.
    destruct (resolve_columns_cases cols) as [(c & Hc & _)|(n & _ & Hn & Ha)];
      [eauto | destruct (Ha (Hall n Hn))].
Qed.

End PipelineFacts.

(* ===================================================================== *)
(** * Concrete files *)
(* ===================================================================== *)

Section Concrete.

#[local] Existing Instance Sample.pandas.

(** The day file runs, and each of its five fact rows has four keys of
    the dimension tables. *)
Lemma C1_day_file :
  Sample.run (Sample.frame Sample.day) = Ok (fst Sample.day_run, snd Sample.day_run) /\
  forall line f, In (line, f) (fact_sales (fst Sample.day_run)) ->
    (exists k, f_date_key f = Some k
               /\ In k (map fst (dim_date (dims (fst Sample.day_run))))) /\
    (exists k, f_customer_key f = Some k
               /\ In k (map fst (dim_customer (dims (fst Sample.day_run))))) /\
    (exists k, f_product_key f = Some k
               /\ In k (map fst (dim_product (dims (fst Sample.day_run))))) /\
    (exists k, f_country_key f = Some k
               /\ In k (map fst (dim_country (dims (fst Sample.day_run))))).
Proof.
  assert (H : Sample.run (Sample.frame Sample.day)
              = Ok (fst Sample.day_run, snd Sample.day_run))
    by (vm_compute; reflexivity).
  split; [exact H|].
  exact (@C1_referential_completeness Sample.pandas Sample.empty_db
           (Sample.frame Sample.day) (fst Sample.day_run) (snd Sample.day_run) H).
Defined.

(** The day file: five cleaned records, five fact rows. *)
Lemma C8_day_file :
  exists df c cl,
    Sample.frame Sample.day = Some df /\
    resolve_columns (columns df) = Ok c /\
    clean c (rows df) = Ok cl /\
    List.length (fact_sales (fst Sample.day_run)) = List.length cl /\
    Forall2 (fun r f =>
               f_invoice_no f = invoice_no r /\
               f_invoice_datetime f = invoice_datetime r /\
               f_quantity f = quantity r /\
               f_unit_price f = unit_price r /\
               f_revenue f = revenue r /\
               f_is_return f = is_return r)
            cl (map snd (fact_sales (fst Sample.day_run))) /\
    In (FactRowCount (List.length cl)) (snd Sample.day_run).
Proof.
  apply (@C8_one_fact_row_per_cleaned_record Sample.pandas Sample.empty_db
           (Sample.frame Sample.day) (fst Sample.day_run) (snd Sample.day_run)).
  vm_compute; reflexivity.
Defined.

(** The day file: stock code 71053 has two descriptions and two product
    rows. *)
Lemma C5_day_file :
  exists df c cl,
    Sample.frame Sample.day = Some df /\
    resolve_columns (columns df) = Ok c /\
    clean c (rows df) = Ok cl /\
    (forall sd : string * string,
        count_occ pair_dec (map snd (dim_product (dims (fst Sample.day_run)))) sd =
        if in_dec pair_dec sd (map product_of cl) then 1%nat else 0%nat) /\
    (forall r1 r2,
        In r1 cl -> In r2 cl ->
        stock_code r1 = stock_code r2 -> description r1 <> description r2 ->
        exists k1 k2,
          k1 <> k2 /\
          In (k1, (stock_code r1, description r1)) (dim_product (dims (fst Sample.day_run))) /\
          In (k2, (stock_code r2, description r2)) (dim_product (dims (fst Sample.day_run)))).
Proof.
  apply (@C5_product_dimension Sample.pandas Sample.empty_db
           (Sample.frame Sample.day) (fst Sample.day_run) (snd Sample.day_run)).
  vm_compute; reflexivity.
Defined.

Example day_products :
  dim_product (dims (fst Sample.day_run)) =
  [(1, ("22086", "PAPER CHAIN KIT 50'S CHRISTMAS"));
   (2, ("21773", "DECORATIVE ROSE BATHROOM BOTTLE"));
   (3, ("D", "Discount"));
   (4, ("71053", "WHITE METAL LANTERN"));
   (5, ("71053", "WHITE MOROCCAN METAL LANTERN"))].
Proof. vm_compute; reflexivity. Qed.

(** Against a database without customers the lantern line is loaded with
    a null customer key, and the warning counts it. *)
Lemma C6_no_customers :
  In (MissingKeys 0 1 0 0)
     (snd (load_facts Sample.no_customers (Sample.unwrap (Sample.cleaned [Sample.lantern])))) /\
  map (fun e => f_customer_key (snd e))
      (fact_sales (fst (load_facts Sample.no_customers
                          (Sample.unwrap (Sample.cleaned [Sample.lantern]))))) = [None].
Proof.
  pose proof (@C6_unresolved_keys_warning _
                Sample.no_customers (Sample.unwrap (Sample.cleaned [Sample.lantern])))
    as (Hrows & _ & Hwarn & _).
  split.
  - apply Hwarn.
    assert (Hpos : (0 <? count_na m_customer_key
                           (merge_keys (dims Sample.no_customers)
                              (Sample.unwrap (Sample.cleaned [Sample.lantern]))))%nat = true)
      by (vm_compute; reflexivity).
    apply count_na_pos in Hpos; destruct Hpos as (x & Hx & Hn).
    exists x; split; [assumption | right; left; assumption].
  - vm_compute; reflexivity.
Defined.

(** C2. A record with a zero quantity survives the cleaning.  The line
    whose Quantity field is 0.5 passes the three filters, since the
    filter compares the parsed number 0.5 with 0; the integer quantity is
    computed afterwards and rounds toward zero, so the cleaned record and
    the fact row that the run loads have quantity 0. *)
Theorem C2_half_unit_has_zero_quantity :
  Sample.half_unit "Quantity" = Some "0.5" /\
  List.length (Sample.filtered [Sample.half_unit]) = 1%nat /\
  map quantity (Sample.unwrap (Sample.cleaned [Sample.half_unit])) = [0] /\
  exists w out,
    Sample.run (Sample.frame [Sample.half_unit]) = Ok (w, out) /\
    map (fun e => f_quantity (snd e)) (fact_sales w) = [0].
Proof.
  split; [reflexivity|].
  split; [vm_compute; reflexivity|].
  split; [vm_compute; reflexivity|].
  exists (fst (Sample.unwrap_run (Sample.run (Sample.frame [Sample.half_unit])))),
         (snd (Sample.unwrap_run (Sample.run (Sample.frame [Sample.half_unit])))).
  split; vm_compute; reflexivity.
Qed.

(** On a file with a return, a zero quantity and a negative price, the
    return is the only row that is left, with its quantity -1. *)
Lemma returns_file :
  map quantity (Sample.unwrap (Sample.cleaned [Sample.returned; Sample.zero_quantity;
                                               Sample.negative_price])) = [-1] /\
  forall x,
    In x (Sample.unwrap (Sample.cleaned [Sample.returned; Sample.zero_quantity;
                                         Sample.negative_price])) ->
    F64.ltb F64.zero (unit_price x) = true /\
    (quantity x = 0 <-> F64.trunc (p_Quantity (c_src x)) = 0) /\
    (F64.is_integral (p_Quantity (c_src x)) = true -> quantity x <> 0).
Proof.
  split; [vm_compute; reflexivity|].
  intros x Hx.
  pose proof (@cleaned_record_invariants Sample.pandas Sample.header_columns
                [Sample.returned; Sample.zero_quantity; Sample.negative_price])
    as (_ & _ & H).
  destruct (H _ eq_refl x Hx) as (_ & _ & _ & _ & _ & Hp & Hz & Hq).
  split; [assumption | split; assumption].
Defined.

(** C3, counterexample. A file with the lantern line, a line of quantity 0
    and a line of price -1 gives the very result of the file with the
    lantern line alone, though the third filter drops two rows of the
    first and none of the second: no function of the result counts the
    dropped rows. *)
Lemma C3_drop_counts_not_reported :
  Sample.run (Sample.frame [Sample.lantern; Sample.zero_quantity; Sample.negative_price])
  = Sample.run (Sample.frame [Sample.lantern]) /\
  Sample.dropped [Sample.lantern; Sample.zero_quantity; Sample.negative_price] = 2%nat /\
  Sample.dropped [Sample.lantern] = 0%nat /\
  ~ (exists count : result (Warehouse * list event) -> nat,
        forall ls, count (Sample.run (Sample.frame ls)) = Sample.dropped ls).
Proof.
  assert (E : Sample.run (Sample.frame [Sample.lantern; Sample.zero_quantity;
                                        Sample.negative_price])
              = Sample.run (Sample.frame [Sample.lantern]))
    by (vm_compute; reflexivity).
  assert (D2 : Sample.dropped [Sample.lantern; Sample.zero_quantity; Sample.negative_price]
               = 2%nat) by (vm_compute; reflexivity).
  assert (D0 : Sample.dropped [Sample.lantern] = 0%nat) by (vm_compute; reflexivity).
  repeat split; try assumption.
  intros (count & H).
  pose proof (H [Sample.lantern; Sample.zero_quantity; Sample.negative_price]) as H2.
  pose proof (H [Sample.lantern]) as H0.
  rewrite E, H0, D0, D2 in H2; discriminate.
Qed.

(** The file with the lantern line and the two dropped lines prints one
    fact row, no return, and nothing about the two lines. *)
Lemma C3_dropped_lines_file :
  Sample.run (Sample.frame [Sample.lantern; Sample.zero_quantity; Sample.negative_price])
  = Ok (Sample.unwrap_run
          (Sample.run (Sample.frame [Sample.lantern; Sample.zero_quantity;
                                     Sample.negative_price]))) /\
  snd (Sample.unwrap_run
         (Sample.run (Sample.frame [Sample.lantern; Sample.zero_quantity;
                                    Sample.negative_price])))
  = ([Msg "Loading CSV..."; Msg "Building SQLite DB";
      Msg "Creating schema..."; Msg "Loading dimensions...";
      Msg "Loading fact table...";
      FactRowCount 1; ReturnCounts [(0, 1%nat)];
      Msg "Exporting tables for Power BI..."]
     ++ exports ++ [Msg "DONE"])%list.
Proof.
  assert (H : Sample.run (Sample.frame [Sample.lantern; Sample.zero_quantity;
                                        Sample.negative_price])
              = Ok (fst (Sample.unwrap_run
                           (Sample.run (Sample.frame [Sample.lantern; Sample.zero_quantity;
                                                      Sample.negative_price]))),
                    snd (Sample.unwrap_run
                           (Sample.run (Sample.frame [Sample.lantern; Sample.zero_quantity;
                                                      Sample.negative_price])))))
    by (vm_compute; reflexivity).
  split; [vm_compute; reflexivity|].
  rewrite (@C3_only_kept_rows_are_reported Sample.pandas Sample.empty_db Sample.header
             [Sample.lantern; Sample.zero_quantity; Sample.negative_price]
             Sample.header_columns _ _ eq_refl H).
  vm_compute; reflexivity.
Defined.

(** C4. A customer id that parses as a number is not always normalised.
    The line of customer 12583.5 passes the filters and its customer id
    parses as a number, yet the id is neither rendered as an integer nor
    replaced by "GUEST": the cast to the nullable integer type raises, no
    cleaned record comes out and the run ends with that exception. *)
Theorem C4_fractional_customer_id_not_normalized :
  Sample.fractional_customer' "Customer ID" = Some "12583.5" /\
  List.length (Sample.filtered [Sample.fractional_customer']) = 1%nat /\
  F64.notna (Sample.to_numeric (Sample.fractional_customer' "Customer ID")) = true /\
  Sample.cleaned [Sample.fractional_customer'] = Raise UnsafeInt64Cast /\
  Sample.run (Sample.frame [Sample.fractional_customer']) = Raise UnsafeInt64Cast.
Proof.
  split; [reflexivity|].
  repeat split; vm_compute; reflexivity.
Qed.

(** A float customer id and a missing one: "12345" and "GUEST", both rows
    kept. *)
Lemma float_and_guest_file :
  map customer_id
      (Sample.unwrap (Sample.cleaned [Sample.float_customer; Sample.guest]))
  = ["12345"; "GUEST"] /\
  normalize_customer_id (Sample.float_customer "Customer ID") = Ok "12345" /\
  normalize_customer_id (Sample.guest "Customer ID") = Ok "GUEST".
Proof.
  pose proof (@customer_id_normalization Sample.pandas Sample.header_columns
                [Sample.float_customer; Sample.guest]) as (Hguest & _ & Hfloat & _).
  split; [vm_compute; reflexivity|].
  split; [apply Hfloat | apply Hguest]; vm_compute; reflexivity.
Defined.

(** C7. The matching of column names is not insensitive to whitespace.
    Under the header of the first edition of the data set every required
    name has a column equal to it up to case and whitespace ("CustomerID"
    for "Customer ID"), and the run still fails for a missing column:
    [col] strips the names and does not look at the space inside. *)
Theorem C7_inner_whitespace_is_significant :
  (forall name, In name required_columns ->
                has_column_modulo_spaces Sample.old_header name) /\
  Sample.run (Some (mkDataFrame Sample.old_header [Sample.old_lantern]))
  = Raise (MissingColumn "Customer ID" Sample.old_header).
Proof.
  split; [|vm_compute; reflexivity].
  intros name Hin; unfold has_column_modulo_spaces.
  simpl in Hin.
  destruct Hin as [<-|[<-|[<-|[<-|[<-|[<-|[<-|[<-|[]]]]]]]]].
  - exists "Invoice"; split; [simpl; tauto | reflexivity].
  - exists "StockCode"; split; [simpl; tauto | reflexivity].
  - exists "Description"; split; [simpl; tauto | reflexivity].
  - exists "Quantity"; split; [simpl; tauto | reflexivity].
  - exists "InvoiceDate"; split; [simpl; tauto | reflexivity].
  - exists "Price"; split; [simpl; tauto | reflexivity].
  - exists "CustomerID"; split; [simpl; tauto | reflexivity].
  - exists "Country"; split; [simpl; tauto | reflexivity].
Qed.

(** The old header: "Customer ID" has no column up to case and outer
    whitespace, and the error names it and lists the header. *)
Lemma old_header_file :
  exists name,
    In name required_columns /\ ~ has_column Sample.old_header name /\
    forall rs,
      main Sample.empty_db (Some (mkDataFrame Sample.old_header rs))
      = Raise (MissingColumn name Sample.old_header).
Proof.
  pose proof (@missing_column_error Sample.pandas Sample.empty_db Sample.old_header)
    as (_ & H & _).
  apply H; exists "Customer ID"; split; [simpl; tauto|].
  intros (c & Hc & Hn); simpl in Hc.
  destruct Hc as [<-|[<-|[<-|[<-|[<-|[<-|[<-|[<-|[]]]]]]]]]; vm_compute in Hn; discriminate.
Defined.

(** The scenario with the parsers of [Sample]. *)
Lemma C9_lantern_line :
  exists x,
    clean Sample.header_columns [Sample.lantern] = Ok [x] /\
    full_date x = "2010-12-01" /\
    year x = 2010 /\
    month x = 12 /\
    quarter x = 4 /\
    revenue x = F64.decimal 2034 2 /\
    is_return x = 0 /\
    customer_id x = "17850".
Proof.
  apply (@C9_lantern_scenario Sample.pandas Sample.header_columns Sample.lantern);
    vm_compute; reflexivity.
Defined.

(** C10, counterexample. A fractional customer id does not abort the run
    when its row is dropped by the filters.  The first line of the file
    has customer id 12345.7, which parses as a number that is not whole,
    and quantity 0; the run completes and loads the lantern line.  So it
    is not every file with such a row that aborts. *)
Lemma C10_dropped_fractional_id_completes :
  Sample.dropped_fractional "Customer ID" = Some "12345.7" /\
  F64.notna (Sample.to_numeric (Sample.dropped_fractional "Customer ID")) = true /\
  F64.is_integral (Sample.to_numeric (Sample.dropped_fractional "Customer ID")) = false /\
  (exists w out,
      Sample.run (Sample.frame [Sample.dropped_fractional; Sample.lantern]) = Ok (w, out) /\
      map (fun e => f_invoice_no (snd e)) (fact_sales w) = ["536365"]) /\
  ~ (forall rs : list Row,
        (exists r, In r rs /\
                   F64.notna (Sample.to_numeric (r "Customer ID")) = true /\
                   F64.is_integral (Sample.to_numeric (r "Customer ID")) = false) ->
        Sample.run (Sample.frame rs) = Raise UnsafeInt64Cast).
Proof.
  assert (Hn : F64.notna (Sample.to_numeric (Sample.dropped_fractional "Customer ID")) = true)
    by (vm_compute; reflexivity).
  assert (Hi : F64.is_integral (Sample.to_numeric (Sample.dropped_fractional "Customer ID"))
               = false) by (vm_compute; reflexivity).
  split; [reflexivity|].
  split; [exact Hn|].
  split; [exact Hi|].
  split.
  - exists (fst (Sample.unwrap_run
                   (Sample.run (Sample.frame [Sample.dropped_fractional; Sample.lantern])))),
           (snd (Sample.unwrap_run
                   (Sample.run (Sample.frame [Sample.dropped_fractional; Sample.lantern])))).
    split; vm_compute; reflexivity.
  - intro H.
    assert (E : Sample.run (Sample.frame [Sample.dropped_fractional; Sample.lantern])
                = Raise UnsafeInt64Cast).
    { apply H; exists Sample.dropped_fractional; split; [left; reflexivity|].
      split; assumption. }
    vm_compute in E; discriminate.
Qed.

(** C10. A customer id that parses as a number but is not a whole number
    aborts the run when its row passes the filters.  The file whose one
    line has customer id 12345.7 ends with the exception of the cast to
    the nullable integer type, where no id is normalised and no "GUEST"
    assigned.  In general, with any parsers: when a row that passed the
    filters has such an id, [main] ends with that exception; and a run
    that completes had whole-number ids on every filtered row whose id
    parses. *)
Theorem C10_fractional_customer_id_aborts :
  Sample.fractional_customer "Customer ID" = Some "12345.7" /\
  Sample.run (Sample.frame [Sample.fractional_customer]) = Raise UnsafeInt64Cast /\
  forall (P : Pandas) (db : Warehouse) (cols : list string) (rs : list Row) (c : Columns),
    resolve_columns cols = Ok c ->
    ((exists p, In p (filter_rows c rs) /\
                F64.notna (to_numeric (p_row p (CustomerIdCol c))) = true /\
                F64.is_integral (to_numeric (p_row p (CustomerIdCol c))) = false) ->
     main db (Some (mkDataFrame cols rs)) = Raise UnsafeInt64Cast) /\
    (forall w out,
        main db (Some (mkDataFrame cols rs)) = Ok (w, out) ->
        forall p, In p (filter_rows c rs) ->
          F64.notna (to_numeric (p_row p (CustomerIdCol c))) = true ->
          F64.is_integral (to_numeric (p_row p (CustomerIdCol c))) = true).
Proof.
  split; [reflexivity|].
  split; [vm_compute; reflexivity|].
  intros P db cols rs c; apply fractional_customer_id_aborts.
Qed.

(** The line of customer 12583.5 aborts the run as well. *)
Lemma C10_second_fractional_file :
  Sample.run (Sample.frame [Sample.fractional_customer']) = Raise UnsafeInt64Cast.
Proof.
  destruct C10_fractional_customer_id_aborts as (_ & _ & H).
  refine (proj1 (H Sample.pandas Sample.empty_db Sample.header
                   [Sample.fractional_customer'] Sample.header_columns _) _).
  - vm_compute; reflexivity.
  - exists (Sample.parsed Sample.fractional_customer' (mkTimestamp 2010 12 1 8 45 0)).
    split; [|split; vm_compute; reflexivity].
    apply filter_rows_In; repeat split; try (vm_compute; reflexivity).
    left; reflexivity.
Defined.

End Concrete.

(* ===================================================================== *)
(** * Further properties of the script *)
(* ===================================================================== *)

(** ** Key numbering *)

Lemma numbered_rows {A : Type} (l : list A) (k : Z) : map snd (numbered k l) = l.
Proof.
  revert k; induction l as [|a r IH]; intro k; simpl; [reflexivity|].
  rewrite IH; reflexivity.
Qed.

Lemma numbered_app {A : Type} (l : list A) (a : A) (k : Z) :
  numbered k (l ++ [a]) = (numbered k l ++ [(k + Z.of_nat (List.length l), a)])%list.
Proof.
  revert k; induction l as [|b r IH]; intro k; simpl numbered.
  - simpl; rewrite Z.add_0_r; reflexivity.
  - rewrite IH; cbn [app List.length].
    replace (k + 1 + Z.of_nat (List.length r))
      with (k + Z.of_nat (S (List.length r))) by lia.
    reflexivity.
Qed.

Lemma numbered_max {A : Type} (l : list A) (k : Z) :
  1 <= k ->
  fold_right Z.max 0 (map fst (numbered k l)) =
  match l with
  | [] => 0
  | _ => k + Z.of_nat (List.length l) - 1
  end.
Proof.
  revert k; induction l as [|a r IH]; intros k Hk; [reflexivity|].
  change (fold_right Z.max 0 (map fst (numbered k (a :: r))))
    with (Z.max k (fold_right Z.max 0 (map fst (numbered (k + 1) r)))).
  rewrite IH by lia.
  destruct r as [|b r']; [simpl; lia|].
  change (List.length (a :: b :: r')) with (S (List.length (b :: r'))).
  rewrite Nat2Z.inj_succ; lia.
Qed.

(** AUTOINCREMENT on a table numbered from 1 gives the next number. *)
Lemma next_rowid_numbered {A : Type} (l : list A) :
  next_rowid (numbered 1 l) = 1 + Z.of_nat (List.length l).
Proof.
  unfold next_rowid; rewrite numbered_max by lia.
  destruct l; [reflexivity|]; lia.
Qed.

Lemma append_rows_numbered {A : Type} (rs pre : list A) :
  append_rows (numbered 1 pre) rs = numbered 1 (pre ++ rs).
Proof.
  unfold append_rows; revert pre; induction rs as [|a r IH]; intro pre; simpl.
  - rewrite app_nil_r; reflexivity.
  - rewrite next_rowid_numbered, <- numbered_app, IH, <- app_assoc; reflexivity.
Qed.

(** Rows that are distinct on the UNIQUE columns all go in, each under
    the next number. *)
Lemma insert_or_ignore_numbered {A U : Type} (uniq : A -> U)
      (U_dec : forall x y : U, {x = y} + {x <> y}) (tmp pre : list A) :
  NoDup (map uniq (pre ++ tmp)) ->
  insert_or_ignore uniq U_dec (numbered 1 pre) tmp = numbered 1 (pre ++ tmp).
Proof.
  unfold insert_or_ignore; revert pre; induction tmp as [|a r IH]; intros pre Hnd; simpl.
  - rewrite app_nil_r; reflexivity.
  - assert (Hc : collides uniq U_dec (numbered 1 pre) a = false).
    { apply not_true_is_false; intro Hc; apply collides_true in Hc.
      rewrite <- (map_map snd uniq), numbered_rows in Hc.
      rewrite map_app in Hnd; simpl in Hnd.
      apply NoDup_remove_2 in Hnd; apply Hnd, in_or_app; left; exact Hc. }
    unfold insert_row at 2; rewrite Hc.
    rewrite next_rowid_numbered, <- numbered_app.
    rewrite IH; rewrite <- app_assoc; [reflexivity | exact Hnd].
Qed.

Lemma value_determines_key {A : Type} (t : table A) (k1 k2 : Z) (a : A) :
  NoDup (map snd t) -> In (k1, a) t -> In (k2, a) t -> k1 = k2.
Proof.
  induction t as [|[k x] r IH]; simpl; intros Hnd H1 H2; [contradiction|].
  inversion Hnd as [|? ? Hnot Hr]; subst.
  destruct H1 as [H1|H1], H2 as [H2|H2].
  - congruence.
  - inversion H1; subst. exfalso; apply Hnot, in_map_iff; exists (k2, a); auto.
  - inversion H2; subst. exfalso; apply Hnot, in_map_iff; exists (k1, a); auto.
  - auto.
Qed.

Lemma Forall2_in_l {A B : Type} (R : A -> B -> Prop) l l' a :
  Forall2 R l l' -> In a l -> exists b, In b l' /\ R a b.
Proof.
  induction 1; simpl; intros Hin; [contradiction|].
  destruct Hin as [<-|Hin]; [eauto|].
  destruct (IHForall2 Hin) as (b & ? & ?); eauto.
Qed.

Lemma Forall2_combine {A B C : Type} (R : A -> B -> Prop) (g : B -> C) l l' a c :
  Forall2 R l l' -> In (a, c) (combine l (map g l')) ->
  exists b, In b l' /\ R a b /\ c = g b.
Proof.
  induction 1 as [|x y l l' Hxy _ IH]; simpl; intros Hin; [contradiction|].
  destruct Hin as [E|Hin].
  - inversion E; subst; eauto.
  - destruct (IH Hin) as (b & ? & ? & ?); eauto.
Qed.

Section Coverage.

Context {P : Pandas}.

(** ** The dimension tables *)

(** The four dimensions of a run satisfy the constraints of the schema. *)
Lemma load_dimensions_well_keyed (db : Warehouse) (df : list Cleaned) :
  let d := dims (load_dimensions (create_schema db) df) in
  well_keyed (fun x : string => x) (dim_customer d) /\
  well_keyed (fun x : string * string => x) (dim_product d) /\
  well_keyed (fun x : string => x) (dim_country d) /\
  well_keyed d_full_date (dim_date d).
Proof.
  unfold load_dimensions, create_schema; simpl.
  repeat split;
    first [ exact (proj1 (@insert_or_ignore_well_keyed _ _ _ string_dec _ []
                            (well_keyed_nil _)))
          | exact (proj2 (@insert_or_ignore_well_keyed _ _ _ string_dec _ []
                            (well_keyed_nil _)))
          | exact (proj1 (@insert_or_ignore_well_keyed _ _ _ pair_dec _ []
                            (well_keyed_nil _)))
          | exact (proj2 (@insert_or_ignore_well_keyed _ _ _ pair_dec _ []
                            (well_keyed_nil _))) ].
Qed.

(** X2. Surrogate keys are handed out from 1 in the order of first
    occurrence: after a run the customer, product and country dimensions
    hold the distinct natural keys of the cleaned frame, in the order in
    which the frame first shows them, under the keys 1, 2, 3, ...; and
    the fact rows have the line ids 1, 2, 3, ... in the order of the
    frame. *)
Theorem keys_numbered_by_first_occurrence
  (db : Warehouse) (csv : option DataFrame) (w : Warehouse) (out : list event) :
  main db csv = Ok (w, out) ->
  exists df c cl,
    csv = Some df /\
    resolve_columns (columns df) = Ok c /\
    clean c (rows df) = Ok cl /\
    dim_customer (dims w) = numbered 1 (drop_duplicates string_dec (map customer_id cl)) /\
    dim_product (dims w) = numbered 1 (drop_duplicates pair_dec (map product_of cl)) /\
    dim_country (dims w) = numbered 1 (drop_duplicates string_dec (map country cl)) /\
    fact_sales w = numbered 1 (map snd (fact_sales w)) /\
    List.length (fact_sales w) = List.length cl.
Proof.
  intro H; pose proof (main_facts _ _ H) as (df & c & cl & fact & Hcsv & Hc & Hcl & Hd & Hres & Hf & _).
  apply main_Ok in H; destruct H as (df' & c' & cl' & Hcsv' & Hc' & Hcl' & Hw & _).
  rewrite Hcsv in Hcsv'; inversion Hcsv'; subst df'.
  rewrite Hc in Hc'; inversion Hc'; subst c'.
  rewrite Hcl in Hcl'; inversion Hcl'; subst cl'.
  exists df, c, cl; repeat split; try assumption.
  - rewrite Hd; unfold load_dimensions, create_schema; cbn [dims dim_customer].
    apply (@insert_or_ignore_numbered _ _ (fun x : string => x) string_dec _ []).
    rewrite map_id; apply drop_duplicates_NoDup.
  - rewrite Hd; unfold load_dimensions, create_schema; cbn [dims dim_product].
    apply (@insert_or_ignore_numbered _ _ (fun x : string * string => x) pair_dec _ []).
    rewrite map_id; apply drop_duplicates_NoDup.
  - rewrite Hd; unfold load_dimensions, create_schema; cbn [dims dim_country].
    apply (@insert_or_ignore_numbered _ _ (fun x : string => x) string_dec _ []).
    rewrite map_id; apply drop_duplicates_NoDup.
  - rewrite Hw; unfold load_facts; cbn [fst fact_sales].
    rewrite load_dimensions_fact_sales.
    match goal with
    | |- context [append_rows [] ?X] =>
        rewrite (append_rows_numbered X [] : append_rows [] X = numbered 1 X)
    end.
    rewrite numbered_rows; reflexivity.
  - rewrite <- (length_map snd), Hf, length_map.
    symmetry; apply (Forall2_length_eq Hres).
Qed.

(** X3. The customer, country and date dimensions hold exactly one row
    per distinct natural key of the cleaned frame (customer id, country,
    full date) and no other row; the primary keys of each table are
    distinct. *)
Theorem dimension_entries_exact
  (db : Warehouse) (csv : option DataFrame) (w : Warehouse) (out : list event) :
  main db csv = Ok (w, out) ->
  exists df c cl,
    csv = Some df /\
    resolve_columns (columns df) = Ok c /\
    clean c (rows df) = Ok cl /\
    (forall id : string,
        count_occ string_dec (map snd (dim_customer (dims w))) id =
        if in_dec string_dec id (map customer_id cl) then 1%nat else 0%nat) /\
    (forall k : string,
        count_occ string_dec (map snd (dim_country (dims w))) k =
        if in_dec string_dec k (map country cl) then 1%nat else 0%nat) /\
    (forall d : string,
        count_occ string_dec (map (fun e => d_full_date (snd e)) (dim_date (dims w))) d =
        if in_dec string_dec d (map full_date cl) then 1%nat else 0%nat) /\
    (forall e, In e (dim_date (dims w)) -> In (snd e) (map date_row_of cl)) /\
    NoDup (map fst (dim_customer (dims w))) /\
    NoDup (map fst (dim_product (dims w))) /\
    NoDup (map fst (dim_country (dims w))) /\
    NoDup (map fst (dim_date (dims w))).
Proof.
  intro H; apply main_facts in H.
  destruct H as (df & c & cl & fact & Hcsv & Hc & Hcl & Hd & _ & _ & _).
  exists df, c, cl; repeat split; try assumption; rewrite Hd;
    try apply (load_dimensions_well_keyed db cl).
  - intro id.
    destruct (load_dimensions_well_keyed db cl) as ((_ & Hu) & _).
    rewrite (count_occ_NoDup string_dec _ Hu).
    assert (Hiff : In id (map snd (dim_customer (dims (load_dimensions (create_schema db) cl))))
                   <-> In id (map customer_id cl)).
    { unfold load_dimensions, create_schema; cbn [dims dim_customer]; split.
      - intro Hin; apply in_map_iff in Hin; destruct Hin as (e & <- & He).
        apply insert_or_ignore_origin in He; destruct He as [[]|He].
        apply drop_duplicates_In in He; assumption.
      - intro Hin.
        apply (@insert_or_ignore_present _ _ (fun x : string => x) string_dec).
        apply drop_duplicates_In, Hin. }
    destruct (in_dec string_dec id _) as [Hi|Hi], (in_dec string_dec id _) as [Hj|Hj];
      try reflexivity; exfalso; [apply Hj, Hiff, Hi | apply Hi, Hiff, Hj].
  - intro k.
    destruct (load_dimensions_well_keyed db cl) as (_ & _ & (_ & Hu) & _).
    rewrite (count_occ_NoDup string_dec _ Hu).
    assert (Hiff : In k (map snd (dim_country (dims (load_dimensions (create_schema db) cl))))
                   <-> In k (map country cl)).
    { unfold load_dimensions, create_schema; cbn [dims dim_country]; split.
      - intro Hin; apply in_map_iff in Hin; destruct Hin as (e & <- & He).
        apply insert_or_ignore_origin in He; destruct He as [[]|He].
        apply drop_duplicates_In in He; assumption.
      - intro Hin.
        apply (@insert_or_ignore_present _ _ (fun x : string => x) string_dec).
        apply drop_duplicates_In, Hin. }
    destruct (in_dec string_dec k _) as [Hi|Hi], (in_dec string_dec k _) as [Hj|Hj];
      try reflexivity; exfalso; [apply Hj, Hiff, Hi | apply Hi, Hiff, Hj].
  - intro d.
    destruct (load_dimensions_well_keyed db cl) as (_ & _ & _ & (_ & Hu)).
    rewrite (count_occ_NoDup string_dec _ Hu).
    assert (Hiff : In d (map (fun e => d_full_date (snd e))
                           (dim_date (dims (load_dimensions (create_schema db) cl))))
                   <-> In d (map full_date cl)).
    { unfold load_dimensions, create_schema; cbn [dims dim_date]; split.
      - intro Hin; apply in_map_iff in Hin; destruct Hin as (e & <- & He).
        apply insert_or_ignore_origin in He; destruct He as [[]|He].
        apply drop_duplicates_In, in_map_iff in He; destruct He as (r & <- & Hr).
        apply in_map_iff; exists r; auto.
      - intro Hin; apply in_map_iff in Hin; destruct Hin as (r & <- & Hr).
        apply (@insert_or_ignore_present _ _ d_full_date string_dec _ _ (date_row_of r)).
        apply drop_duplicates_In, in_map, Hr. }
    destruct (in_dec string_dec d _) as [Hi|Hi], (in_dec string_dec d _) as [Hj|Hj];
      try reflexivity; exfalso; [apply Hj, Hiff, Hi | apply Hi, Hiff, Hj].
  - intros e He; unfold load_dimensions, create_schema in He; cbn [dims dim_date] in He.
    apply insert_or_ignore_origin in He; destruct He as [[]|He].
    apply drop_duplicates_In in He; assumption.
Qed.

(** ** Keys and natural keys *)

Lemma date_keys_well_keyed (d : Dimensions) :
  well_keyed d_full_date (dim_date d) ->
  NoDup (map fst (date_keys d)) /\ NoDup (map snd (date_keys d)).
Proof.
  intros [Hk Hu]; unfold date_keys; rewrite !map_map; simpl; split; assumption.
Qed.

(** X4. Surrogate keys stand for natural keys faithfully: two fact rows of
    a run carry the same customer key exactly when their cleaned records
    have the same customer id, and likewise for the product key and the
    (stock code, description) pair, the country key and the country, the
    date key and the full date. *)
Theorem surrogate_keys_are_faithful
  (db : Warehouse) (csv : option DataFrame) (w : Warehouse) (out : list event) :
  main db csv = Ok (w, out) ->
  exists df c cl,
    csv = Some df /\
    resolve_columns (columns df) = Ok c /\
    clean c (rows df) = Ok cl /\
    forall r1 f1 r2 f2,
      In (r1, f1) (combine cl (map snd (fact_sales w))) ->
      In (r2, f2) (combine cl (map snd (fact_sales w))) ->
      (f_customer_key f1 = f_customer_key f2 <-> customer_id r1 = customer_id r2) /\
      (f_product_key f1 = f_product_key f2 <-> product_of r1 = product_of r2) /\
      (f_country_key f1 = f_country_key f2 <-> country r1 = country r2) /\
      (f_date_key f1 = f_date_key f2 <-> full_date r1 = full_date r2).
Proof.
  intro H; apply main_facts in H.
  destruct H as (df & c & cl & fact & Hcsv & Hc & Hcl & Hd & Hres & Hf & _).
  exists df, c, cl; repeat split; try assumption;
    rewrite Hf in H, H0;
    destruct (Forall2_combine _ _ _ Hres H)
      as (x1 & _ & (_ & (kd1 & Sd1 & Id1) & (kc1 & Sc1 & Ic1)
                      & (kk1 & Sk1 & Ik1) & (kp1 & Sp1 & Ip1)) & ->);
    destruct (Forall2_combine _ _ _ Hres H0)
      as (x2 & _ & (_ & (kd2 & Sd2 & Id2) & (kc2 & Sc2 & Ic2)
                      & (kk2 & Sk2 & Ik2) & (kp2 & Sp2 & Ip2)) & ->);
    rewrite Hd in *;
    destruct (load_dimensions_well_keyed db cl)
      as ((Ck & Cu) & (Pk & Pu) & (Kk & Ku) & Dwk);
    destruct (date_keys_well_keyed _ Dwk) as (Dk & Du);
    cbn [fact_out f_customer_key f_product_key f_country_key f_date_key].
  - rewrite Sc1, Sc2; intro E; inversion E; subst kc2.
    exact (key_determines_row _ _ _ _ Ck Ic1 Ic2).
  - rewrite Sc1, Sc2; intro E; rewrite E in Ic1; f_equal.
    exact (value_determines_key _ _ _ _ Cu Ic1 Ic2).
  - rewrite Sp1, Sp2; intro E; inversion E; subst kp2.
    exact (key_determines_row _ _ _ _ Pk Ip1 Ip2).
  - rewrite Sp1, Sp2; intro E; rewrite E in Ip1; f_equal.
    exact (value_determines_key _ _ _ _ Pu Ip1 Ip2).
  - rewrite Sk1, Sk2; intro E; inversion E; subst kk2.
    exact (key_determines_row _ _ _ _ Kk Ik1 Ik2).
  - rewrite Sk1, Sk2; intro E; rewrite E in Ik1; f_equal.
    exact (value_determines_key _ _ _ _ Ku Ik1 Ik2).
  - rewrite Sd1, Sd2; intro E; inversion E; subst kd2.
    exact (key_determines_row _ _ _ _ Dk Id1 Id2).
  - rewrite Sd1, Sd2; intro E; rewrite E in Id1; f_equal.
    exact (value_determines_key _ _ _ _ Du Id1 Id2).
Qed.

Lemma fact_row_of_merged (w : Warehouse) (fact : list Merged) (x : Merged) :
  map snd (fact_sales w) = map fact_out fact ->
  In x fact -> exists line, In (line, fact_out x) (fact_sales w).
Proof.
  intros Hf Hx.
  assert (H : In (fact_out x) (map snd (fact_sales w)))
    by (rewrite Hf; apply in_map, Hx).
  apply in_map_iff in H; destruct H as ([line f] & E & Hin); simpl in E; subst f.
  exists line; exact Hin.
Qed.

(** X5. No dimension row is an orphan: every row of each of the four
    dimension tables of a run is referenced by at least one fact row. *)
Theorem no_orphan_dimension_rows
  (db : Warehouse) (csv : option DataFrame) (w : Warehouse) (out : list event) :
  main db csv = Ok (w, out) ->
  (forall k id, In (k, id) (dim_customer (dims w)) ->
     exists line f, In (line, f) (fact_sales w) /\ f_customer_key f = Some k) /\
  (forall k sd, In (k, sd) (dim_product (dims w)) ->
     exists line f, In (line, f) (fact_sales w) /\ f_product_key f = Some k) /\
  (forall k cn, In (k, cn) (dim_country (dims w)) ->
     exists line f, In (line, f) (fact_sales w) /\ f_country_key f = Some k) /\
  (forall k d, In (k, d) (dim_date (dims w)) ->
     exists line f, In (line, f) (fact_sales w) /\ f_date_key f = Some k).
Proof.
  intro H; apply main_facts in H.
  destruct H as (df & c & cl & fact & _ & _ & _ & Hd & Hres & Hf & _).
  rewrite Hd in *.
  destruct (load_dimensions_well_keyed db cl)
    as ((Ck & Cu) & (Pk & Pu) & (Kk & Ku) & Dwk).
  destruct (date_keys_well_keyed _ Dwk) as (Dk & Du).
  repeat split.
  - intros k id Hin.
    assert (Ho : In id (map customer_id cl)).
    { unfold load_dimensions, create_schema in Hin; cbn [dims dim_customer] in Hin.
      apply insert_or_ignore_origin in Hin; destruct Hin as [[]|Hin].
      apply drop_duplicates_In in Hin; exact Hin. }
    apply in_map_iff in Ho; destruct Ho as (r & Er & Hr).
    destruct (@Forall2_in_l _ _ _ _ _ _ Hres Hr) as (x & Hx & _ & _ & (k' & Sk & Ik) & _).
    rewrite Er in Ik.
    destruct (fact_row_of_merged w fact x Hf Hx) as (line & Hl).
    exists line, (fact_out x); split; [exact Hl|].
    cbn [fact_out f_customer_key]; rewrite Sk; f_equal.
    exact (value_determines_key _ _ _ _ Cu Ik Hin).
  - intros k sd Hin.
    assert (Ho : In sd (map product_of cl)).
    { unfold load_dimensions, create_schema in Hin; cbn [dims dim_product] in Hin.
      apply insert_or_ignore_origin in Hin; destruct Hin as [[]|Hin].
      apply drop_duplicates_In in Hin; exact Hin. }
    apply in_map_iff in Ho; destruct Ho as (r & Er & Hr).
    destruct (@Forall2_in_l _ _ _ _ _ _ Hres Hr) as (x & Hx & _ & _ & _ & _ & (k' & Sk & Ik)).
    rewrite Er in Ik.
    destruct (fact_row_of_merged w fact x Hf Hx) as (line & Hl).
    exists line, (fact_out x); split; [exact Hl|].
    cbn [fact_out f_product_key]; rewrite Sk; f_equal.
    exact (value_determines_key _ _ _ _ Pu Ik Hin).
  - intros k cn Hin.
    assert (Ho : In cn (map country cl)).
    { unfold load_dimensions, create_schema in Hin; cbn [dims dim_country] in Hin.
      apply insert_or_ignore_origin in Hin; destruct Hin as [[]|Hin].
      apply drop_duplicates_In in Hin; exact Hin. }
    apply in_map_iff in Ho; destruct Ho as (r & Er & Hr).
    destruct (@Forall2_in_l _ _ _ _ _ _ Hres Hr) as (x & Hx & _ & _ & _ & (k' & Sk & Ik) & _).
    rewrite Er in Ik.
    destruct (fact_row_of_merged w fact x Hf Hx) as (line & Hl).
    exists line, (fact_out x); split; [exact Hl|].
    cbn [fact_out f_country_key]; rewrite Sk; f_equal.
    exact (value_determines_key _ _ _ _ Ku Ik Hin).
  - intros k d Hin.
    assert (Ho : In d (map date_row_of cl)).
    { unfold load_dimensions, create_schema in Hin; cbn [dims dim_date] in Hin.
      apply insert_or_ignore_origin in Hin; destruct Hin as [[]|Hin].
      apply drop_duplicates_In in Hin; exact Hin. }
    apply in_map_iff in Ho; destruct Ho as (r & Er & Hr).
    destruct (@Forall2_in_l _ _ _ _ _ _ Hres Hr) as (x & Hx & _ & (k' & Sk & Ik) & _).
    assert (Hk : In (k, full_date r) (date_keys (dims (load_dimensions (create_schema db) cl)))).
    { unfold date_keys; apply in_map_iff; exists (k, d); split; [|exact Hin].
      simpl; rewrite <- Er; reflexivity. }
    destruct (fact_row_of_merged w fact x Hf Hx) as (line & Hl).
    exists line, (fact_out x); split; [exact Hl|].
    cbn [fact_out f_date_key]; rewrite Sk; f_equal.
    exact (value_determines_key _ _ _ _ Du Ik Hk).
Qed.

(** ** The measures of the fact table *)

(** The fact rows of a run are the cleaned records, column for column. *)
Lemma fact_rows_of_cleaned
  (db : Warehouse) (csv : option DataFrame) (w : Warehouse) (out : list event) :
  main db csv = Ok (w, out) ->
  exists df c cl,
    csv = Some df /\ resolve_columns (columns df) = Ok c /\ clean c (rows df) = Ok cl /\
    forall line f, In (line, f) (fact_sales w) ->
      exists r, In r cl /\
                f_quantity f = quantity r /\ f_unit_price f = unit_price r /\
                f_revenue f = revenue r /\ f_is_return f = is_return r.
Proof.
  intro H; apply main_facts in H.
  destruct H as (df & c & cl & fact & Hcsv & Hc & Hcl & _ & Hres & Hf & _).
  exists df, c, cl; repeat split; try assumption.
  intros line f Hin.
  destruct (@fact_row_origin _ w fact line f Hf Hin) as (x & Hx & ->).
  destruct (@Forall2_in_r _ _ _ _ _ _ Hres Hx) as (r & Hr & <- & _).
  exists (m_row x); repeat split; assumption.
Qed.

(** X6. In every fact row of a run the revenue is the binary64 product of
    the quantity (converted to binary64) and the unit price, the unit
    price is above zero, and the return flag is 1 when the quantity is
    negative and 0 otherwise. *)
Theorem fact_measures
  (db : Warehouse) (csv : option DataFrame) (w : Warehouse) (out : list event) :
  main db csv = Ok (w, out) ->
  forall line f, In (line, f) (fact_sales w) ->
    f_revenue f = F64.mul (F64.of_Z (f_quantity f)) (f_unit_price f) /\
    F64.ltb F64.zero (f_unit_price f) = true /\
    (f_is_return f = 1 <-> f_quantity f < 0) /\
    (f_is_return f = 0 <-> 0 <= f_quantity f).
Proof.
  intros H line f Hin.
  destruct (fact_rows_of_cleaned _ _ H) as (df & c & cl & _ & _ & Hcl & Hrows).
  destruct (Hrows line f Hin) as (r & Hr & -> & -> & -> & ->).
  apply clean_Ok in Hcl.
  destruct (@Forall2_in_r _ _ _ _ _ _ Hcl Hr) as (p & Hp & id & _ & Hd).
  apply derive_Ok in Hd.
  destruct Hd as (_ & _ & _ & _ & _ & _ & _ & Hup & Hrev & Hret).
  apply filter_rows_In in Hp; destruct Hp as (_ & _ & _ & _ & _ & _ & _ & Hpos).
  rewrite Hrev, Hret, Hup.
  split; [reflexivity|]; split; [exact Hpos|].
  destruct (quantity r <? 0) eqn:E;
    [apply Z.ltb_lt in E | apply Z.ltb_ge in E]; split; split; intro; try lia; discriminate.
Qed.

Lemma count_is_return_split (t : table FactRow) :
  (forall e, In e t -> f_is_return (snd e) = 0 \/ f_is_return (snd e) = 1) ->
  (count_is_return 0 t + count_is_return 1 t)%nat = List.length t.
Proof.
  unfold count_is_return; induction t as [|e r IH]; simpl; intro H; [reflexivity|].
  specialize (IH (fun x Hx => H x (or_intror Hx))).
  destruct (H e (or_introl eq_refl)) as [E|E]; rewrite E; simpl; lia.
Qed.

(** X7. The printed frame of return counts partitions the fact table: it
    has one line for each flag (0, then 1) that some fact row carries,
    with the number of those rows, never a line with count zero, and its
    counts add up to the printed number of fact rows; the count of flag 1
    is the number of fact rows with a negative quantity. *)
Theorem return_counts_partition
  (db : Warehouse) (csv : option DataFrame) (w : Warehouse) (out : list event) :
  main db csv = Ok (w, out) ->
  In (ReturnCounts (return_counts (fact_sales w))) out /\
  In (FactRowCount (List.length (fact_sales w))) out /\
  fold_right Nat.add 0%nat (map snd (return_counts (fact_sales w)))
  = List.length (fact_sales w) /\
  (forall v n, In (v, n) (return_counts (fact_sales w)) ->
     (v = 0 \/ v = 1) /\ (0 < n)%nat /\ n = count_is_return v (fact_sales w)) /\
  (forall v, (v = 0 \/ v = 1) -> (0 < count_is_return v (fact_sales w))%nat ->
     In (v, count_is_return v (fact_sales w)) (return_counts (fact_sales w))) /\
  count_is_return 1 (fact_sales w)
  = List.length (filter (fun e => f_quantity (snd e) <? 0) (fact_sales w)).
Proof.
  intro H.
  assert (Hflag : forall e, In e (fact_sales w) ->
                   (f_is_return (snd e) = 1 <-> f_quantity (snd e) < 0) /\
                   (f_is_return (snd e) = 0 <-> 0 <= f_quantity (snd e))).
  { intros [line f] He; apply (fact_measures _ _ H line f He). }
  pose proof (main_Ok _ _ H) as (df & c & cl & _ & _ & _ & Hw & Hout).
  assert (Hsplit := count_is_return_split (fact_sales w)
            (fun e He => match Z_lt_le_dec (f_quantity (snd e)) 0 with
                         | left l => or_intror (proj2 (proj1 (Hflag e He)) l)
                         | right g => or_introl (proj2 (proj2 (Hflag e He)) g)
                         end)).
  split; [|split; [|split; [|split; [|split]]]].
  - rewrite Hout, Hw; apply in_or_app; right.
    unfold load_facts; cbn [snd fst].
    apply in_or_app; right; apply in_or_app; right; simpl; auto.
  - rewrite Hout, Hw; apply in_or_app; right.
    unfold load_facts; cbn [snd fst].
    apply in_or_app; right; apply in_or_app; right; simpl; auto.
  - rewrite <- Hsplit; unfold return_counts; simpl.
    destruct (count_is_return 0 (fact_sales w)), (count_is_return 1 (fact_sales w));
      simpl; lia.
  - intros v n Hin; unfold return_counts in Hin; apply filter_In in Hin.
    destruct Hin as [Hin Hpos]; simpl in Hpos; apply Nat.ltb_lt in Hpos.
    simpl in Hin; destruct Hin as [E|[E|[]]]; inversion E; subst; auto.
  - intros v Hv Hpos; unfold return_counts; apply filter_In; split.
    + simpl; destruct Hv as [->| ->]; auto.
    + simpl; apply Nat.ltb_lt, Hpos.
  - unfold count_is_return; f_equal.
    apply filter_ext_in; intros e He.
    destruct (Hflag e He) as [H1 _].
    destruct (f_is_return (snd e) =? 1) eqn:E1, (f_quantity (snd e) <? 0) eqn:E2;
      try reflexivity; exfalso.
    + apply Z.eqb_eq in E1; apply Z.ltb_ge in E2; apply H1 in E1; lia.
    + apply Z.eqb_neq in E1; apply Z.ltb_lt in E2; apply E1, H1, E2.
Qed.

(** ** When the run completes *)

Lemma normalize_Ok_iff (v : cell) :
  (exists id, normalize_customer_id v = Ok id) <-> customer_id_ok (to_numeric v) = true.
Proof.
  unfold normalize_customer_id, astype_Int64, customer_id_ok.
  destruct (F64.notna (to_numeric v)); cbn [negb orb].
  - destruct (F64.isfinite (to_numeric v) && F64.is_integral (to_numeric v)
              && F64.in_int64 (F64.trunc (to_numeric v))); cbn [bind]; split.
    + reflexivity.
    + intros _; eexists; reflexivity.
    + intros (id & H); discriminate.
    + discriminate.
  - cbn [bind]; split; [reflexivity | intros _; eexists; reflexivity].
Qed.

Lemma normalize_not_ok (v : cell) :
  customer_id_ok (to_numeric v) = false -> normalize_customer_id v = Raise UnsafeInt64Cast.
Proof.
  unfold normalize_customer_id, astype_Int64, customer_id_ok.
  destruct (F64.notna (to_numeric v)); cbn [negb orb]; [|discriminate].
  intros ->; reflexivity.
Qed.

Lemma derive_Ok_iff (c : Columns) (pi : Parsed * string) :
  (exists x, derive c pi = Ok x) <-> F64.isfinite (p_Quantity (fst pi)) = true.
Proof.
  unfold derive, astype_int.
  destruct (F64.isfinite (p_Quantity (fst pi))); cbn [bind]; split.
  - reflexivity.
  - intros _; eexists; reflexivity.
  - intros (x & H); discriminate.
  - discriminate.
Qed.

(** The only exception of the derived columns. *)
Lemma derive_raises (c : Columns) (pi : Parsed * string) (e : error) :
  derive c pi = Raise e -> e = IntCastingNaN.
Proof.
  unfold derive, astype_int.
  destruct (F64.isfinite (p_Quantity (fst pi))); cbn [bind]; [discriminate|].
  intro H; inversion H; reflexivity.
Qed.

Lemma add_customer_id_fst (c : Columns) (p : Parsed) (pi : Parsed * string) :
  add_customer_id c p = Ok pi -> fst pi = p.
Proof.
  unfold add_customer_id; intro H; apply bind_Ok in H.
  destruct H as (id & _ & E); inversion E; reflexivity.
Qed.

(** X8. Once the eight columns are found, the run completes exactly when
    every row that passes the filters has a customer id that is missing,
    unparseable or a whole number within 64 bits, and a finite quantity.
    Otherwise it ends with the exception of the customer id cast when
    some filtered row has another customer id, and with the exception of
    the integer cast of the quantity when all customer ids are accepted
    and some filtered row has an infinite quantity. *)
Theorem main_completes_iff
  (db : Warehouse) (cols : list string) (rs : list Row) (c : Columns) :
  resolve_columns cols = Ok c ->
  ((exists w out, main db (Some (mkDataFrame cols rs)) = Ok (w, out)) <->
   forall p, In p (filter_rows c rs) -> castable c p = true) /\
  ((exists p, In p (filter_rows c rs) /\
              customer_id_ok (to_numeric (p_row p (CustomerIdCol c))) = false) ->
   main db (Some (mkDataFrame cols rs)) = Raise UnsafeInt64Cast) /\
  ((forall p, In p (filter_rows c rs) ->
              customer_id_ok (to_numeric (p_row p (CustomerIdCol c))) = true) ->
   (exists p, In p (filter_rows c rs) /\ F64.isfinite (p_Quantity p) = false) ->
   main db (Some (mkDataFrame cols rs)) = Raise IntCastingNaN).
Proof.
  intro Hc.
  assert (Hmain : main db (Some (mkDataFrame cols rs)) =
                  (cleaned <- clean c rs ;;
                   let db1 := load_dimensions (create_schema db) cleaned in
                   let '(db2, out) := load_facts db1 cleaned in
                   Ok (db2,
                       ([Msg "Loading CSV..."; Msg "Building SQLite DB";
                         Msg "Creating schema..."; Msg "Loading dimensions..."]
                        ++ out)%list))).
  { unfold main; cbn [columns rows]; rewrite Hc; reflexivity. }
  assert (Hids : (forall p, In p (filter_rows c rs) ->
                    customer_id_ok (to_numeric (p_row p (CustomerIdCol c))) = true) ->
                 exists ids, traverse (add_customer_id c) (filter_rows c rs) = Ok ids).
  { intro Hall; apply traverse_total; intros p Hp; unfold add_customer_id.
    destruct (proj2 (normalize_Ok_iff _) (Hall p Hp)) as (id & ->).
    eexists; reflexivity. }
  split; [split|split].
  - intros (w & out & H) p Hp.
    rewrite Hmain in H; apply bind_Ok in H; destruct H as (cl & Hcl & _).
    apply clean_Ok in Hcl.
    destruct (@Forall2_in_l _ _ _ _ _ _ Hcl Hp) as (x & _ & id & Hn & Hd).
    unfold castable; apply andb_true_iff; split.
    + apply normalize_Ok_iff; eauto.
    + apply (derive_Ok_iff c (p, id)); eauto.
  - intro Hall.
    destruct Hids as (ids & Hids).
    { intros p Hp; specialize (Hall p Hp); unfold castable in Hall.
      apply andb_true_iff in Hall; apply Hall. }
    destruct (@traverse_total _ _ (derive c) ids) as (cl & Hcl).
    { intros pi Hpi; apply derive_Ok_iff.
      pose proof (traverse_Ok _ _ Hids) as F.
      destruct (@Forall2_in_r _ _ _ _ _ _ F Hpi) as (p & Hp & Hadd).
      rewrite (add_customer_id_fst _ _ Hadd).
      specialize (Hall p Hp); unfold castable in Hall.
      apply andb_true_iff in Hall; apply Hall. }
    rewrite Hmain; unfold clean; rewrite Hids; cbn [bind]; rewrite Hcl; cbn [bind].
    destruct (load_facts _ cl) as [db2 o]; eauto.
  - intros (p & Hp & Hbad).
    rewrite Hmain; unfold clean.
    rewrite (@traverse_Raise _ _ (add_customer_id c) UnsafeInt64Cast);
      [reflexivity | apply add_customer_id_raises |].
    exists p; split; [assumption|].
    unfold add_customer_id; rewrite (normalize_not_ok _ Hbad); reflexivity.
  - intros Hall (p & Hp & Hinf).
    destruct (Hids Hall) as (ids & Hids').
    rewrite Hmain; unfold clean; rewrite Hids'; cbn [bind].
    rewrite (@traverse_Raise _ _ (derive c) IntCastingNaN);
      [reflexivity | apply derive_raises |].
    pose proof (traverse_Ok _ _ Hids') as F.
    destruct (@Forall2_in_l _ _ _ _ _ _ F Hp) as (pi & Hpi & Hadd).
    exists pi; split; [assumption|].
    unfold derive, astype_int; rewrite (add_customer_id_fst _ _ Hadd), Hinf; reflexivity.
Qed.

(** X9. When the columns are found and no row passes the filters (an
    empty file among others), the run completes: it leaves the five tables
    empty and prints 0 fact rows and an empty frame of return counts. *)
Theorem main_without_rows
  (db : Warehouse) (cols : list string) (rs : list Row) (c : Columns) :
  resolve_columns cols = Ok c ->
  filter_rows c rs = [] ->
  main db (Some (mkDataFrame cols rs)) = Ok empty_run.
Proof.
  intros Hc He; unfold main; cbn [columns rows]; rewrite Hc; cbn [bind].
  unfold clean; rewrite He; reflexivity.
Qed.

(** ** Column lookup *)

Lemma find_column_first (t : string) (cols : list string) (c : string) :
  find_column t cols = Some c ->
  exists pre post,
    cols = (pre ++ c :: post)%list /\ norm_name c = t /\
    forall x, In x pre -> norm_name x <> t.
Proof.
  induction cols as [|x r IH]; simpl; [discriminate|].
  destruct (String.eqb_spec (norm_name x) t) as [E|Hne].
  - intro H; inversion H; subst x.
    exists [], r; repeat split; [assumption | intros y []].
  - intro H; destruct (IH H) as (pre & post & -> & Hc & Hpre).
    exists (x :: pre), post; repeat split; [assumption|].
    intros y [<-|Hy]; [assumption | apply Hpre, Hy].
Qed.

(** X10. [col] returns the first column of the frame that matches: every
    column before it differs from the name asked for, even up to case and
    outer whitespace; and the column found is the same for every spelling
    of the name that differs in case or outer whitespace only. *)
Theorem col_first_match (cols : list string) (name c : string) :
  col cols name = Ok c ->
  (exists pre post,
      cols = (pre ++ c :: post)%list /\
      PyStr.lower (PyStr.strip c) = PyStr.lower (PyStr.strip name) /\
      forall x, In x pre ->
                PyStr.lower (PyStr.strip x) <> PyStr.lower (PyStr.strip name)) /\
  (forall name',
      PyStr.lower (PyStr.strip name') = PyStr.lower (PyStr.strip name) ->
      col cols name' = Ok c).
Proof.
  unfold col; destruct (find_column (norm_name name) cols) as [c'|] eqn:E;
    [|discriminate].
  intro H; inversion H; subst c'; split.
  - exact (find_column_first _ _ E).
  - intros name' Hn; fold (norm_name name') (norm_name name) in Hn.
    rewrite Hn, E; reflexivity.
Qed.

(** ** Text fields *)

Lemma rstrip_idempotent (s : string) : PyStr.rstrip (PyStr.rstrip s) = PyStr.rstrip s.
Proof.
  induction s as [|c r IH]; [reflexivity|].
  cbn [PyStr.rstrip].
  destruct (PyStr.rstrip r) as [|d r'] eqn:E.
  - destruct (PyStr.is_space c) eqn:Hc; [reflexivity|].
    cbn [PyStr.rstrip]; rewrite Hc; reflexivity.
  - cbn [PyStr.rstrip]; cbn [PyStr.rstrip] in IH.
    rewrite IH; reflexivity.
Qed.

Lemma lstrip_head (s : string) :
  match PyStr.lstrip s with
  | EmptyString => True
  | String c _ => PyStr.is_space c = false
  end.
Proof.
  induction s as [|c r IH]; simpl; [exact I|].
  destruct (PyStr.is_space c) eqn:Hc; [exact IH | exact Hc].
Qed.

Lemma rstrip_head (c : ascii) (r : string) :
  PyStr.is_space c = false -> exists r', PyStr.rstrip (String c r) = String c r'.
Proof.
  intro Hc; cbn [PyStr.rstrip].
  destruct (PyStr.rstrip r); [rewrite Hc|]; eexists; reflexivity.
Qed.

(** Stripping twice is stripping once. *)
Lemma strip_idempotent (s : string) : PyStr.strip (PyStr.strip s) = PyStr.strip s.
Proof.
  unfold PyStr.strip.
  pose proof (lstrip_head s) as H.
  destruct (PyStr.lstrip s) as [|c r]; [reflexivity|].
  destruct (rstrip_head c r H) as (r' & E).
  rewrite E; cbn [PyStr.lstrip]; rewrite H, <- E.
  apply rstrip_idempotent.
Qed.

Lemma derive_text (c : Columns) (p : Parsed) (id : string) (x : Cleaned) :
  derive c (p, id) = Ok x ->
  invoice_no x = text (p_row p (InvoiceCol c)) /\
  stock_code x = text (p_row p (StockCodeCol c)) /\
  description x = text (p_row p (DescriptionCol c)) /\
  country x = text (p_row p (CountryCol c)) /\
  customer_id x = id.
Proof.
  unfold derive; cbn [fst snd].
  destruct (astype_int (p_Quantity p)) as [q|e]; cbn [bind]; [|discriminate].
  intro H; inversion H; subst; simpl; repeat split.
Qed.

Lemma normalize_stripped (v : cell) (id : string) :
  normalize_customer_id v = Ok id -> PyStr.strip id = id.
Proof.
  unfold normalize_customer_id; intro H; apply bind_Ok in H.
  destruct H as (n & _ & E); cbv zeta in E.
  destruct (PyStr.mem (PyStr.strip (Int64_str n)) ["<NA>"; "nan"; "None"]);
    inversion E; [reflexivity | apply strip_idempotent].
Qed.

(** X11. The text columns of a cleaned record carry no whitespace at
    either end: the invoice number, stock code, description and country
    are the stripped text of their source columns, stripping them again
    changes nothing, and the same holds for the customer id. *)
Theorem text_fields_are_stripped (c : Columns) (rs : list Row) (cl : list Cleaned) :
  clean c rs = Ok cl ->
  forall x, In x cl ->
    invoice_no x = PyStr.strip (astype_str (p_row (c_src x) (InvoiceCol c))) /\
    stock_code x = PyStr.strip (astype_str (p_row (c_src x) (StockCodeCol c))) /\
    description x = PyStr.strip (astype_str (p_row (c_src x) (DescriptionCol c))) /\
    country x = PyStr.strip (astype_str (p_row (c_src x) (CountryCol c))) /\
    PyStr.strip (invoice_no x) = invoice_no x /\
    PyStr.strip (stock_code x) = stock_code x /\
    PyStr.strip (description x) = description x /\
    PyStr.strip (country x) = country x /\
    PyStr.strip (customer_id x) = customer_id x.
Proof.
  intros Hcl x Hx; apply clean_Ok in Hcl.
  destruct (@Forall2_in_r _ _ _ _ _ _ Hcl Hx) as (p & _ & id & Hn & Hd).
  pose proof Hd as Hd'; apply derive_Ok in Hd'; destruct Hd' as (_ & Hsrc & _).
  apply derive_text in Hd; destruct Hd as (Hi & Hs & Hde & Hco & Hid).
  rewrite Hsrc, Hi, Hs, Hde, Hco, Hid; unfold text.
  rewrite !strip_idempotent; apply normalize_stripped in Hn; rewrite Hn; repeat split.
Qed.

(** ** Calendar columns *)

(** X12. When the timestamps that [to_datetime] returns have a month
    between 1 and 12, every row of the date dimension of a run has such a
    month, a quarter between 1 and 4 that contains the month (months
    3q-2 to 3q), and the English three-letter abbreviation of the month
    as its month name. *)
Theorem calendar_columns
  (db : Warehouse) (csv : option DataFrame) (w : Warehouse) (out : list event) :
  (forall v t, to_datetime v = Some t -> 1 <= ts_month t <= 12) ->
  main db csv = Ok (w, out) ->
  forall k d, In (k, d) (dim_date (dims w)) ->
    1 <= d_month d <= 12 /\
    1 <= d_quarter d <= 4 /\
    3 * d_quarter d - 2 <= d_month d <= 3 * d_quarter d /\
    nth_error ["Jan"; "Feb"; "Mar"; "Apr"; "May"; "Jun";
               "Jul"; "Aug"; "Sep"; "Oct"; "Nov"; "Dec"]
              (Z.to_nat (d_month d - 1)) = Some (d_month_name d).
Proof.
  intros Hvalid H k d Hin; apply main_facts in H.
  destruct H as (df & c & cl & fact & _ & _ & Hcl & Hd & _).
  rewrite Hd in Hin; unfold load_dimensions, create_schema in Hin.
  cbn [dims dim_date] in Hin.
  apply insert_or_ignore_origin in Hin; destruct Hin as [[]|Hin]; cbn [snd] in Hin.
  apply drop_duplicates_In, in_map_iff in Hin; destruct Hin as (x & <- & Hx).
  apply clean_Ok in Hcl.
  destruct (@Forall2_in_r _ _ _ _ _ _ Hcl Hx) as (p & Hp & id & _ & Hder).
  apply filter_rows_In in Hp; destruct Hp as (_ & Ht & _).
  specialize (Hvalid _ _ Ht).
  unfold derive in Hder; cbn [fst snd] in Hder.
  destruct (astype_int (p_Quantity p)) as [q|e]; cbn [bind] in Hder; [|discriminate].
  inversion Hder; subst x; clear Hder.
  unfold date_row_of; cbn [d_month d_quarter d_month_name month quarter month_name].
  set (m := ts_month (p_InvoiceDate p)) in *.
  assert (Hq : 3 * ((m - 1) / 3) <= m - 1 < 3 * ((m - 1) / 3) + 3).
  { pose proof (Z.div_mod (m - 1) 3 ltac:(lia)).
    pose proof (Z.mod_pos_bound (m - 1) 3 ltac:(lia)). lia. }
  repeat split; try lia.
  unfold strftime_b; fold m.
  assert (Hm : m = 1 \/ m = 2 \/ m = 3 \/ m = 4 \/ m = 5 \/ m = 6 \/
               m = 7 \/ m = 8 \/ m = 9 \/ m = 10 \/ m = 11 \/ m = 12) by lia.
  destruct Hm as [E|[E|[E|[E|[E|[E|[E|[E|[E|[E|[E|E]]]]]]]]]]]; rewrite E; reflexivity.
Qed.

End Coverage.

(* ===================================================================== *)
(** * Further properties on concrete files *)
(* ===================================================================== *)

Section ConcreteCoverage.

#[local] Existing Instance Sample.pandas.

Lemma day_file_runs :
  Sample.run (Sample.frame Sample.day) = Ok (fst Sample.day_run, snd Sample.day_run).
Proof. vm_compute; reflexivity. Qed.

(** The day file: line ids 1 to 5 and customers numbered as they come. *)
Lemma day_file_numbering :
  Sample.run (Sample.frame Sample.day) = Ok (fst Sample.day_run, snd Sample.day_run) /\
  fact_sales (fst Sample.day_run) = numbered 1 (map snd (fact_sales (fst Sample.day_run))).
Proof.
  split; [exact day_file_runs|].
  destruct (@keys_numbered_by_first_occurrence Sample.pandas Sample.empty_db
              (Sample.frame Sample.day) (fst Sample.day_run) (snd Sample.day_run)
              day_file_runs)
    as (df & c & cl & _ & _ & _ & _ & _ & _ & Hn & _).
  exact Hn.
Defined.

Example day_customers :
  dim_customer (dims (fst Sample.day_run))
  = [(1, "12345"); (2, "GUEST"); (3, "14527"); (4, "17850")].
Proof. vm_compute; reflexivity. Qed.

(** The day file: distinct keys in the customer dimension. *)
Lemma day_file_dimensions :
  Sample.run (Sample.frame Sample.day) = Ok (fst Sample.day_run, snd Sample.day_run) /\
  NoDup (map fst (dim_customer (dims (fst Sample.day_run)))).
Proof.
  split; [exact day_file_runs|].
  destruct (@dimension_entries_exact Sample.pandas Sample.empty_db
              (Sample.frame Sample.day) (fst Sample.day_run) (snd Sample.day_run)
              day_file_runs)
    as (df & c & cl & _ & _ & _ & _ & _ & _ & _ & Hn & _).
  exact Hn.
Defined.

(** The day file: equal customer keys, equal customer ids. *)
Lemma day_file_faithful_keys :
  Sample.run (Sample.frame Sample.day) = Ok (fst Sample.day_run, snd Sample.day_run) /\
  exists cl : list Cleaned,
    forall r1 f1 r2 f2,
      In (r1, f1) (combine cl (map snd (fact_sales (fst Sample.day_run)))) ->
      In (r2, f2) (combine cl (map snd (fact_sales (fst Sample.day_run)))) ->
      (f_customer_key f1 = f_customer_key f2 <-> customer_id r1 = customer_id r2).
Proof.
  split; [exact day_file_runs|].
  destruct (@surrogate_keys_are_faithful Sample.pandas Sample.empty_db
              (Sample.frame Sample.day) (fst Sample.day_run) (snd Sample.day_run)
              day_file_runs)
    as (df & c & cl & _ & _ & _ & Hall).
  exists cl; intros r1 f1 r2 f2 H1 H2; apply (Hall r1 f1 r2 f2 H1 H2).
Defined.

(** The day file: every customer is referenced. *)
Lemma day_file_no_orphans :
  Sample.run (Sample.frame Sample.day) = Ok (fst Sample.day_run, snd Sample.day_run) /\
  forall k id, In (k, id) (dim_customer (dims (fst Sample.day_run))) ->
    exists line f, In (line, f) (fact_sales (fst Sample.day_run))
                   /\ f_customer_key f = Some k.
Proof.
  split; [exact day_file_runs|].
  exact (proj1 (@no_orphan_dimension_rows Sample.pandas Sample.empty_db
                  (Sample.frame Sample.day) (fst Sample.day_run) (snd Sample.day_run)
                  day_file_runs)).
Defined.

(** The day file: revenue and return flag of each fact row. *)
Lemma day_file_measures :
  Sample.run (Sample.frame Sample.day) = Ok (fst Sample.day_run, snd Sample.day_run) /\
  forall line f, In (line, f) (fact_sales (fst Sample.day_run)) ->
    f_revenue f = F64.mul (F64.of_Z (f_quantity f)) (f_unit_price f) /\
    F64.ltb F64.zero (f_unit_price f) = true /\
    (f_is_return f = 1 <-> f_quantity f < 0) /\
    (f_is_return f = 0 <-> 0 <= f_quantity f).
Proof.
  split; [exact day_file_runs|].
  exact (@fact_measures Sample.pandas Sample.empty_db
           (Sample.frame Sample.day) (fst Sample.day_run) (snd Sample.day_run)
           day_file_runs).
Defined.

(** The day file: four sales and one return, five fact rows. *)
Lemma day_file_return_counts :
  Sample.run (Sample.frame Sample.day) = Ok (fst Sample.day_run, snd Sample.day_run) /\
  In (ReturnCounts (return_counts (fact_sales (fst Sample.day_run)))) (snd Sample.day_run) /\
  return_counts (fact_sales (fst Sample.day_run)) = [(0, 4%nat); (1, 1%nat)].
Proof.
  split; [exact day_file_runs|].
  split; [|vm_compute; reflexivity].
  exact (proj1 (@return_counts_partition Sample.pandas Sample.empty_db
                  (Sample.frame Sample.day) (fst Sample.day_run) (snd Sample.day_run)
                  day_file_runs)).
Defined.

(** The day file completes: each of its rows can be cast. *)
Lemma day_file_completes :
  resolve_columns Sample.header = Ok Sample.header_columns /\
  ((exists w out, Sample.run (Sample.frame Sample.day) = Ok (w, out)) <->
   forall p, In p (Sample.filtered Sample.day) -> castable Sample.header_columns p = true).
Proof.
  split; [reflexivity|].
  exact (proj1 (@main_completes_iff Sample.pandas Sample.empty_db Sample.header
                  Sample.day Sample.header_columns eq_refl)).
Defined.

(** A file of dropped lines only: an empty warehouse. *)
Lemma noise_file :
  resolve_columns Sample.header = Ok Sample.header_columns /\
  Sample.filtered Sample.noise = [] /\
  Sample.run (Sample.frame Sample.noise) = Ok empty_run.
Proof.
  assert (Hc : resolve_columns Sample.header = Ok Sample.header_columns) by reflexivity.
  assert (He : Sample.filtered Sample.noise = []).
  { apply length_zero_iff_nil; vm_compute; reflexivity. }
  split; [exact Hc|]; split; [exact He|].
  exact (@main_without_rows Sample.pandas Sample.empty_db Sample.header Sample.noise
           Sample.header_columns Hc He).
Defined.

(** Under the loose header "Invoice" is the first of the two columns that
    match it, whatever the spelling asked for. *)
Lemma loose_header_lookup :
  col Sample.loose_header "Invoice" = Ok " INVOICE" /\
  col Sample.loose_header "  invoice " = Ok " INVOICE".
Proof.
  assert (H : col Sample.loose_header "Invoice" = Ok " INVOICE") by reflexivity.
  split; [exact H|].
  apply (proj2 (@col_first_match Sample.loose_header "Invoice" " INVOICE" H)).
  reflexivity.
Defined.

(** The padded lantern line: its text fields come out stripped. *)
Lemma padded_lantern_line :
  Sample.cleaned [Sample.padded_lantern]
  = Ok (Sample.unwrap (Sample.cleaned [Sample.padded_lantern])) /\
  forall x, In x (Sample.unwrap (Sample.cleaned [Sample.padded_lantern])) ->
    PyStr.strip (country x) = country x /\ PyStr.strip (description x) = description x.
Proof.
  assert (H : clean Sample.header_columns [Sample.padded_lantern]
              = Ok (Sample.unwrap (Sample.cleaned [Sample.padded_lantern])))
    by reflexivity.
  split; [exact H|].
  intros x Hx.
  destruct (@text_fields_are_stripped Sample.pandas Sample.header_columns
              [Sample.padded_lantern] _ H x Hx)
    as (_ & _ & _ & _ & _ & _ & Hd & Hc & _).
  split; assumption.
Defined.

Example padded_lantern_dimensions :
  dims (fst (Sample.unwrap_run (Sample.run (Sample.frame [Sample.lantern;
                                                         Sample.padded_lantern]))))
  = dims (fst (Sample.unwrap_run (Sample.run (Sample.frame [Sample.lantern])))).
Proof. vm_compute; reflexivity. Qed.

Lemma in_range_bounds (lo hi : Z) (v : option Z) (z : Z) :
  Sample.in_range lo hi v = Some z -> lo <= z <= hi.
Proof.
  unfold Sample.in_range; destruct v as [y|]; [|discriminate].
  destruct ((lo <=? y) && (y <=? hi)) eqn:E; [|discriminate].
  intro H; inversion H; subst.
  apply andb_true_iff in E; destruct E as [E1 E2].
  apply Z.leb_le in E1; apply Z.leb_le in E2; lia.
Qed.

(** The sample parser returns months between 1 and 12 only. *)
Lemma sample_months (v : Sample.text_cell) (t : Timestamp) :
  Sample.to_datetime v = Some t -> 1 <= ts_month t <= 12.
Proof.
  unfold Sample.to_datetime, Sample.parse_date; destruct v as [s|]; [|discriminate].
  destruct (Sample.in_range 1677 2262 (Sample.field 0 4 s)) as [y|]; [|discriminate].
  destruct (Sample.in_range 1 12 (Sample.field 5 2 s)) as [m|] eqn:Em; [|discriminate].
  destruct (Sample.in_range 1 31 (Sample.field 8 2 s)) as [d|]; [|discriminate].
  destruct (Sample.sep 4 "-" s && Sample.sep 7 "-" s); [|discriminate].
  destruct (Sample.parse_time s) as [[[h mi] se]|]; [|discriminate].
  intro H; inversion H; subst; simpl.
  eapply in_range_bounds; exact Em.
Qed.

(** The day file: December, fourth quarter. *)
Lemma day_file_calendar :
  (forall v t, Sample.to_datetime v = Some t -> 1 <= ts_month t <= 12) /\
  Sample.run (Sample.frame Sample.day) = Ok (fst Sample.day_run, snd Sample.day_run) /\
  forall k d, In (k, d) (dim_date (dims (fst Sample.day_run))) ->
    1 <= d_month d <= 12 /\
    1 <= d_quarter d <= 4 /\
    3 * d_quarter d - 2 <= d_month d <= 3 * d_quarter d /\
    nth_error ["Jan"; "Feb"; "Mar"; "Apr"; "May"; "Jun";
               "Jul"; "Aug"; "Sep"; "Oct"; "Nov"; "Dec"]
              (Z.to_nat (d_month d - 1)) = Some (d_month_name d).
Proof.
  split; [exact sample_months|]; split; [exact day_file_runs|].
  exact (@calendar_columns Sample.pandas Sample.empty_db
           (Sample.frame Sample.day) (fst Sample.day_run) (snd Sample.day_run)
           sample_months day_file_runs).
Defined.

End ConcreteCoverage.
